(** * SecRandom: the floating window (app/view/floating_window/levitation.py)

    A shallow embedding of [LevitationWindow]: its geometry helpers, the
    button table and layout, the drag detector, edge docking, the retract
    timer, the auto-hide collapse and expand animations, the indicators and
    the persisted position.

    Python integers are modelled as [Z] ([//] is [Z.div], floor division).
    Qt objects are modelled by the part of their state the window reads:
    a [QRect] by x, y, width and height, a [QTimer] by its active flag,
    interval and single-shot flag, a [QPropertyAnimation] by its end value
    and the closures connected to [finished].  The window is a record of
    the attributes its handlers read and write; every handler is a function
    on that record, and the Qt event loop is the [step] function that
    dispatches one event to its handler.  Timeouts and animation ends are
    events: time itself is not modelled, a timer records the interval it
    was started with.

    An animation runs to its end only while Python keeps a reference to it.
    The window keeps [self.animation]; the animations [_expand_window] and
    [_smart_snap_to_edge] start on the storage window are local variables
    without parent, destroyed when the function returns, and their
    [finished] is never delivered.  A timer started with a number of
    milliseconds that does not fit a C [int] raises [OverflowError]: the
    handler stops there, with the window as it is at that point.

    Left out: style sheets, cursors, fonts and icons, the hover effects of
    the indicators and the settings that rebuild the button layout.  The
    drags of the two indicators are modelled on their own, after the
    window; in the window's event loop an arrow button stays where the
    collapse put it. *)

From stdpp Require Import gmap strings list.

Local Open Scope string_scope.
Local Open Scope list_scope.
Local Open Scope Z_scope.

(** ** Qt geometry *)

Record QPoint := mkPoint { pt_x : Z; pt_y : Z }.

Record QRect := mkRect { r_x : Z; r_y : Z; r_width : Z; r_height : Z }.

#[global] Instance QPoint_eq_dec : EqDecision QPoint.
Proof. solve_decision. Defined.
#[global] Instance QRect_eq_dec : EqDecision QRect.
Proof. solve_decision. Defined.

Definition r_left (r : QRect) : Z := r_x r.
Definition r_top (r : QRect) : Z := r_y r.
(** Qt: [right() = x() + width() - 1], [bottom() = y() + height() - 1]. *)
Definition r_right (r : QRect) : Z := r_x r + r_width r - 1.
Definition r_bottom (r : QRect) : Z := r_y r + r_height r - 1.
(** Qt computes the centre in C++, where [/] truncates towards zero. *)
Definition r_center (r : QRect) : QPoint :=
  mkPoint ((r_left r + r_right r) ÷ 2) ((r_top r + r_bottom r) ÷ 2).
Definition r_pos (r : QRect) : QPoint := mkPoint (r_x r) (r_y r).

(** [move(x, y)] keeps the size. *)
Definition r_move (r : QRect) (x y : Z) : QRect :=
  mkRect x y (r_width r) (r_height r).

(** The rectangle [inner] lies inside [outer] (inclusive pixel ranges). *)
Definition rect_inside (inner outer : QRect) : Prop :=
  r_left outer <= r_left inner /\ r_right inner <= r_right outer /\
  r_top outer <= r_top inner /\ r_bottom inner <= r_bottom outer.

(** The display query service: [QGuiApplication.screenAt(p)] may find no
    screen, [QApplication.primaryScreen()] always answers.  Both give the
    screen's [availableGeometry()]. *)
Record Screens := mkScreens {
  screenAt : QPoint -> option QRect;
  primaryScreen : QRect
}.

(** [scr = QGuiApplication.screenAt(fg.center()) or QApplication.primaryScreen()]
    followed by [geo = scr.availableGeometry()]. *)
Definition screen_geo (env : Screens) (fg : QRect) : QRect :=
  match screenAt env (r_center fg) with
  | Some g => g
  | None => primaryScreen env
  end.

(** ** Python list indexing *)

(** [l[i]]: negative indices count from the end, anything outside
    [-len .. len-1] raises IndexError ([None]). *)
Definition py_getitem {A} (l : list A) (i : Z) : option A :=
  if 0 <=? i then l !! Z.to_nat i
  else if - Z.of_nat (length l) <=? i then l !! Z.to_nat (Z.of_nat (length l) + i)
  else None.

(** ** The button table *)

Definition combos : list (list string) :=
  [ ["roll_call"];
    ["quick_draw"];
    ["instant_draw"];
    ["custom_draw"];
    ["lottery"];
    ["roll_call"; "quick_draw"];
    ["roll_call"; "custom_draw"];
    ["roll_call"; "lottery"];
    ["quick_draw"; "custom_draw"];
    ["quick_draw"; "lottery"];
    ["custom_draw"; "lottery"];
    ["roll_call"; "quick_draw"; "custom_draw"];
    ["roll_call"; "quick_draw"; "lottery"];
    ["roll_call"; "custom_draw"; "lottery"];
    ["quick_draw"; "custom_draw"; "lottery"];
    ["roll_call"; "quick_draw"; "custom_draw"; "lottery"] ].

(** [_map_button_control(idx)]; [None] stands for an IndexError. *)
Definition _map_button_control (idx : Z) : option (list string) :=
  if (idx <? 0) || (idx >=? Z.of_nat (length combos))
  then py_getitem combos 0
  else py_getitem combos idx.

(** ** Button layout *)

(** The three layouts buttons can land in: the container's own layout
    (column or row placement) and the [_top] / [_bottom] rows. *)
Record Layouts := mkLayouts {
  container_items : list string;
  top_items : list string;
  bottom_items : list string
}.

Definition empty_layouts : Layouts := mkLayouts [] [] [].

(** [_add_button(btn, index, total)]; a button is named by its spec. *)
Definition _add_button (placement : Z) (lay : Layouts) (btn : string)
    (index total : Z) : Layouts :=
  if placement =? 1 then
    mkLayouts (container_items lay ++ [btn]) (top_items lay) (bottom_items lay)
  else if placement =? 2 then
    mkLayouts (container_items lay ++ [btn]) (top_items lay) (bottom_items lay)
  else
    let split := (total + 1) / 2 in
    if index <? split then
      mkLayouts (container_items lay) (top_items lay ++ [btn]) (bottom_items lay)
    else
      mkLayouts (container_items lay) (top_items lay) (bottom_items lay ++ [btn]).

(** [for i, spec in enumerate(self._buttons_spec): self._add_button(btn, i, len(...))],
    started at index [i]. *)
Fixpoint add_buttons_from (placement : Z) (total : Z) (i : Z)
    (specs : list string) (lay : Layouts) : Layouts :=
  match specs with
  | [] => lay
  | spec :: rest =>
      add_buttons_from placement total (i + 1) rest
        (_add_button placement lay spec i total)
  end.

(** The button loop of [_build_ui] / [rebuild_ui] on freshly created layouts. *)
Definition build_buttons (placement : Z) (specs : list string) : Layouts :=
  add_buttons_from placement (Z.of_nat (length specs)) 0 specs empty_layouts.

(** ** Clamping *)

(** [_clamp_to_screen(x, y)] for a window whose frame geometry is [fg]. *)
Definition _clamp_to_screen (env : Screens) (fg : QRect) (x y : Z) : Z * Z :=
  let geo := screen_geo env fg in
  let cx := Z.max (r_left geo) (Z.min x (r_right geo - r_width fg + 1)) in
  let cy := Z.max (r_top geo) (Z.min y (r_bottom geo - r_height fg + 1)) in
  (cx, cy).

(** ** Timers, slots and animations *)

Inductive MouseButton := LeftButton | RightButton | MiddleButton.

Definition is_left (b : MouseButton) : bool :=
  match b with LeftButton => true | _ => false end.

(** A [QTimer]: whether it is running, the interval it was started with
    (milliseconds) and its single-shot flag. *)
Record QTimer := mkTimer {
  t_active : bool;
  t_interval : Z;
  t_singleShot : bool
}.

(** [t = QTimer(self); t.setSingleShot(True)]. *)
Definition new_single_shot_timer : QTimer := mkTimer false 0 true.
(** [t.stop()] and [t.start(msec)]. *)
Definition timer_stop (t : QTimer) : QTimer :=
  mkTimer false (t_interval t) (t_singleShot t).
Definition timer_start (t : QTimer) (msec : Z) : QTimer :=
  mkTimer true msec (t_singleShot t).
(** [QTimer.start(msec)] and [QTimer.singleShot(msec, slot)] take a C
    [int]: a Python integer outside its range raises [OverflowError] before
    the timer is touched. *)
Definition fits_int (msec : Z) : bool :=
  (-2147483648 <=? msec) && (msec <=? 2147483647).
(** What Qt does to the timer itself when it times out: a single-shot timer
    stops, a repeating one keeps running. *)
Definition timer_timed_out (t : QTimer) : QTimer :=
  if t_singleShot t then timer_stop t else t.

(** The bound methods the window connects to timers or hands to
    [QTimer.singleShot]. *)
Inductive Slot :=
| Slot_begin_drag
| Slot_auto_hide_window
| Slot_check_edge_proximity.

(** The closures the window connects to the [finished] signal of its
    animations, with the local variables they capture.  The last two belong
    to [_expand_window]: the first of them is connected to its local
    animation only, the second inside the first. *)
Inductive Callback :=
    (** [on_animation_finished] of [_check_edge_proximity]: the direction and
        x it passes to the indicator, and the captured [window_pos.y()] and
        [window_height]. *)
| Cb_on_animation_finished (direction : string) (ind_x : Z)
    (window_pos_y window_height : Z)
    (** [on_storage_animation_finished] of [_expand_window], with the
        captured [screen], [window_width] and [window_height]. *)
| Cb_on_storage_animation_finished (screen : QRect)
    (window_width window_height : Z)
    (** [on_main_animation_finished] of [_expand_window]. *)
| Cb_on_main_animation_finished.

(** A geometry animation: running or not, its end value and the closures
    connected to [finished].  The target's geometry is observed at the start
    and at the end of the animation only. *)
Record QPropertyAnimation := mkAnimation {
  a_running : bool;
  a_end : QRect;
  a_finished : list Callback
}.

(** [a.stop()]: the animation stops where it is, [finished] is not emitted. *)
Definition animation_stop (a : QPropertyAnimation) : QPropertyAnimation :=
  mkAnimation false (a_end a) (a_finished a).

(** The storage indicator window.  The animations [_expand_window] and
    [_smart_snap_to_edge] create for it are local variables without parent:
    they are destroyed when the function returns, move nothing and never
    emit [finished], so the window keeps none of them. *)
Record StorageWindow := mkStorage {
  sw_geometry : QRect
}.

(** The arrow indicator: its geometry and the [direction] captured by the
    click handlers. *)
Record ArrowWidget := mkArrow { arrow_geometry : QRect; arrow_direction : string }.

Inductive Signal :=
| positionChanged (x y : Z).

(** Connections made in [__init__]: [_drag_timer.timeout] is connected to
    [_begin_drag]; nothing is connected to [_retract_timer.timeout].
    [_auto_hide_timer.timeout] is connected to [_auto_hide_window] wherever
    that timer is created. *)
Definition _drag_timer_slots : list Slot := [Slot_begin_drag].
Definition _retract_timer_slots : list Slot := [].
Definition _auto_hide_timer_slots : list Slot := [Slot_auto_hide_window].

(** [self._edge_threshold = 5], set in [__init__] and never reassigned. *)
Definition _edge_threshold : Z := 5.

(** ** The window *)

Record Window := mkWindow {
  (* x(), y(), width(), height(); the window is frameless, so
     frameGeometry() is the same rectangle *)
  geometry : QRect;
  _drag_timer : QTimer;
  _dragging : bool;
  _press_pos : QPoint;
  (* the legacy pinned-edge marker (a child widget) with its position,
     None when absent *)
  _indicator : option QPoint;
  _retract_timer : QTimer;
  _retracted : bool;
  _last_stuck : bool;
  _stick_to_edge : bool;
  _retract_seconds : Z;
  _long_press_ms : Z;
  _draggable : bool;
  _stick_indicator_style : Z;
  (* the auto-hide flag *)
  floating_window_stick_to_edge : bool;
  custom_retract_time : Z;
  (* None: the attribute is not set (hasattr is false) *)
  _auto_hide_timer : option QTimer;
  (* None: the attribute is not set *)
  _original_position : option QPoint;
  (* self.animation, None before the first one is created *)
  animation : option QPropertyAnimation;
  (* the storage indicator window, None when absent *)
  storage_window : option StorageWindow;
  (* the arrow indicator (arrow_widget and arrow_button are created and
     deleted together), None when absent *)
  arrow_widget : option ArrowWidget;
  (* pending QTimer.singleShot(ms, slot) calls, and timers that were
     replaced while active *)
  single_shots : list (Z * Slot);
  (* the configuration store, written by
     update_settings(first, second, value) *)
  settings : gmap (string * string) Z;
  (* signals emitted so far, oldest first *)
  emitted : list Signal
}.

(** Field updates ([self.f = v]). *)
Definition set_geometry (v : QRect) (w : Window) : Window :=
  mkWindow v (_drag_timer w) (_dragging w) (_press_pos w) (_indicator w)
    (_retract_timer w) (_retracted w) (_last_stuck w) (_stick_to_edge w)
    (_retract_seconds w) (_long_press_ms w) (_draggable w)
    (_stick_indicator_style w) (floating_window_stick_to_edge w)
    (custom_retract_time w) (_auto_hide_timer w) (_original_position w)
    (animation w) (storage_window w) (arrow_widget w) (single_shots w)
    (settings w) (emitted w).
Definition set_drag_timer (v : QTimer) (w : Window) : Window :=
  mkWindow (geometry w) v (_dragging w) (_press_pos w) (_indicator w)
    (_retract_timer w) (_retracted w) (_last_stuck w) (_stick_to_edge w)
    (_retract_seconds w) (_long_press_ms w) (_draggable w)
    (_stick_indicator_style w) (floating_window_stick_to_edge w)
    (custom_retract_time w) (_auto_hide_timer w) (_original_position w)
    (animation w) (storage_window w) (arrow_widget w) (single_shots w)
    (settings w) (emitted w).
Definition set_dragging (v : bool) (w : Window) : Window :=
  mkWindow (geometry w) (_drag_timer w) v (_press_pos w) (_indicator w)
    (_retract_timer w) (_retracted w) (_last_stuck w) (_stick_to_edge w)
    (_retract_seconds w) (_long_press_ms w) (_draggable w)
    (_stick_indicator_style w) (floating_window_stick_to_edge w)
    (custom_retract_time w) (_auto_hide_timer w) (_original_position w)
    (animation w) (storage_window w) (arrow_widget w) (single_shots w)
    (settings w) (emitted w).
Definition set_press_pos (v : QPoint) (w : Window) : Window :=
  mkWindow (geometry w) (_drag_timer w) (_dragging w) v (_indicator w)
    (_retract_timer w) (_retracted w) (_last_stuck w) (_stick_to_edge w)
    (_retract_seconds w) (_long_press_ms w) (_draggable w)
    (_stick_indicator_style w) (floating_window_stick_to_edge w)
    (custom_retract_time w) (_auto_hide_timer w) (_original_position w)
    (animation w) (storage_window w) (arrow_widget w) (single_shots w)
    (settings w) (emitted w).
Definition set_indicator (v : option QPoint) (w : Window) : Window :=
  mkWindow (geometry w) (_drag_timer w) (_dragging w) (_press_pos w) v
    (_retract_timer w) (_retracted w) (_last_stuck w) (_stick_to_edge w)
    (_retract_seconds w) (_long_press_ms w) (_draggable w)
    (_stick_indicator_style w) (floating_window_stick_to_edge w)
    (custom_retract_time w) (_auto_hide_timer w) (_original_position w)
    (animation w) (storage_window w) (arrow_widget w) (single_shots w)
    (settings w) (emitted w).
Definition set_retract_timer (v : QTimer) (w : Window) : Window :=
  mkWindow (geometry w) (_drag_timer w) (_dragging w) (_press_pos w)
    (_indicator w) v (_retracted w) (_last_stuck w) (_stick_to_edge w)
    (_retract_seconds w) (_long_press_ms w) (_draggable w)
    (_stick_indicator_style w) (floating_window_stick_to_edge w)
    (custom_retract_time w) (_auto_hide_timer w) (_original_position w)
    (animation w) (storage_window w) (arrow_widget w) (single_shots w)
    (settings w) (emitted w).
Definition set_retracted (v : bool) (w : Window) : Window :=
  mkWindow (geometry w) (_drag_timer w) (_dragging w) (_press_pos w)
    (_indicator w) (_retract_timer w) v (_last_stuck w) (_stick_to_edge w)
    (_retract_seconds w) (_long_press_ms w) (_draggable w)
    (_stick_indicator_style w) (floating_window_stick_to_edge w)
    (custom_retract_time w) (_auto_hide_timer w) (_original_position w)
    (animation w) (storage_window w) (arrow_widget w) (single_shots w)
    (settings w) (emitted w).
Definition set_last_stuck (v : bool) (w : Window) : Window :=
  mkWindow (geometry w) (_drag_timer w) (_dragging w) (_press_pos w)
    (_indicator w) (_retract_timer w) (_retracted w) v (_stick_to_edge w)
    (_retract_seconds w) (_long_press_ms w) (_draggable w)
    (_stick_indicator_style w) (floating_window_stick_to_edge w)
    (custom_retract_time w) (_auto_hide_timer w) (_original_position w)
    (animation w) (storage_window w) (arrow_widget w) (single_shots w)
    (settings w) (emitted w).
Definition set_stick_to_edge (v : bool) (w : Window) : Window :=
  mkWindow (geometry w) (_drag_timer w) (_dragging w) (_press_pos w)
    (_indicator w) (_retract_timer w) (_retracted w) (_last_stuck w) v
    (_retract_seconds w) (_long_press_ms w) (_draggable w)
    (_stick_indicator_style w) (floating_window_stick_to_edge w)
    (custom_retract_time w) (_auto_hide_timer w) (_original_position w)
    (animation w) (storage_window w) (arrow_widget w) (single_shots w)
    (settings w) (emitted w).
Definition set_retract_seconds (v : Z) (w : Window) : Window :=
  mkWindow (geometry w) (_drag_timer w) (_dragging w) (_press_pos w)
    (_indicator w) (_retract_timer w) (_retracted w) (_last_stuck w)
    (_stick_to_edge w) v (_long_press_ms w) (_draggable w)
    (_stick_indicator_style w) (floating_window_stick_to_edge w)
    (custom_retract_time w) (_auto_hide_timer w) (_original_position w)
    (animation w) (storage_window w) (arrow_widget w) (single_shots w)
    (settings w) (emitted w).
Definition set_long_press_ms (v : Z) (w : Window) : Window :=
  mkWindow (geometry w) (_drag_timer w) (_dragging w) (_press_pos w)
    (_indicator w) (_retract_timer w) (_retracted w) (_last_stuck w)
    (_stick_to_edge w) (_retract_seconds w) v (_draggable w)
    (_stick_indicator_style w) (floating_window_stick_to_edge w)
    (custom_retract_time w) (_auto_hide_timer w) (_original_position w)
    (animation w) (storage_window w) (arrow_widget w) (single_shots w)
    (settings w) (emitted w).
Definition set_draggable (v : bool) (w : Window) : Window :=
  mkWindow (geometry w) (_drag_timer w) (_dragging w) (_press_pos w)
    (_indicator w) (_retract_timer w) (_retracted w) (_last_stuck w)
    (_stick_to_edge w) (_retract_seconds w) (_long_press_ms w) v
    (_stick_indicator_style w) (floating_window_stick_to_edge w)
    (custom_retract_time w) (_auto_hide_timer w) (_original_position w)
    (animation w) (storage_window w) (arrow_widget w) (single_shots w)
    (settings w) (emitted w).
Definition set_stick_indicator_style (v : Z) (w : Window) : Window :=
  mkWindow (geometry w) (_drag_timer w) (_dragging w) (_press_pos w)
    (_indicator w) (_retract_timer w) (_retracted w) (_last_stuck w)
    (_stick_to_edge w) (_retract_seconds w) (_long_press_ms w) (_draggable w)
    v (floating_window_stick_to_edge w) (custom_retract_time w)
    (_auto_hide_timer w) (_original_position w) (animation w) (storage_window
    w) (arrow_widget w) (single_shots w) (settings w) (emitted w).
Definition set_floating_window_stick_to_edge (v : bool) (w : Window) : Window :=
  mkWindow (geometry w) (_drag_timer w) (_dragging w) (_press_pos w)
    (_indicator w) (_retract_timer w) (_retracted w) (_last_stuck w)
    (_stick_to_edge w) (_retract_seconds w) (_long_press_ms w) (_draggable w)
    (_stick_indicator_style w) v (custom_retract_time w) (_auto_hide_timer w)
    (_original_position w) (animation w) (storage_window w) (arrow_widget w)
    (single_shots w) (settings w) (emitted w).
Definition set_custom_retract_time (v : Z) (w : Window) : Window :=
  mkWindow (geometry w) (_drag_timer w) (_dragging w) (_press_pos w)
    (_indicator w) (_retract_timer w) (_retracted w) (_last_stuck w)
    (_stick_to_edge w) (_retract_seconds w) (_long_press_ms w) (_draggable w)
    (_stick_indicator_style w) (floating_window_stick_to_edge w) v
    (_auto_hide_timer w) (_original_position w) (animation w) (storage_window
    w) (arrow_widget w) (single_shots w) (settings w) (emitted w).
Definition set_auto_hide_timer (v : option QTimer) (w : Window) : Window :=
  mkWindow (geometry w) (_drag_timer w) (_dragging w) (_press_pos w)
    (_indicator w) (_retract_timer w) (_retracted w) (_last_stuck w)
    (_stick_to_edge w) (_retract_seconds w) (_long_press_ms w) (_draggable w)
    (_stick_indicator_style w) (floating_window_stick_to_edge w)
    (custom_retract_time w) v (_original_position w) (animation w)
    (storage_window w) (arrow_widget w) (single_shots w) (settings w) (emitted
    w).
Definition set_original_position (v : option QPoint) (w : Window) : Window :=
  mkWindow (geometry w) (_drag_timer w) (_dragging w) (_press_pos w)
    (_indicator w) (_retract_timer w) (_retracted w) (_last_stuck w)
    (_stick_to_edge w) (_retract_seconds w) (_long_press_ms w) (_draggable w)
    (_stick_indicator_style w) (floating_window_stick_to_edge w)
    (custom_retract_time w) (_auto_hide_timer w) v (animation w)
    (storage_window w) (arrow_widget w) (single_shots w) (settings w) (emitted
    w).
Definition set_animation (v : option QPropertyAnimation) (w : Window) : Window :=
  mkWindow (geometry w) (_drag_timer w) (_dragging w) (_press_pos w)
    (_indicator w) (_retract_timer w) (_retracted w) (_last_stuck w)
    (_stick_to_edge w) (_retract_seconds w) (_long_press_ms w) (_draggable w)
    (_stick_indicator_style w) (floating_window_stick_to_edge w)
    (custom_retract_time w) (_auto_hide_timer w) (_original_position w) v
    (storage_window w) (arrow_widget w) (single_shots w) (settings w) (emitted
    w).
Definition set_storage_window (v : option StorageWindow) (w : Window) : Window :=
  mkWindow (geometry w) (_drag_timer w) (_dragging w) (_press_pos w)
    (_indicator w) (_retract_timer w) (_retracted w) (_last_stuck w)
    (_stick_to_edge w) (_retract_seconds w) (_long_press_ms w) (_draggable w)
    (_stick_indicator_style w) (floating_window_stick_to_edge w)
    (custom_retract_time w) (_auto_hide_timer w) (_original_position w)
    (animation w) v (arrow_widget w) (single_shots w) (settings w) (emitted
    w).
Definition set_arrow_widget (v : option ArrowWidget) (w : Window) : Window :=
  mkWindow (geometry w) (_drag_timer w) (_dragging w) (_press_pos w)
    (_indicator w) (_retract_timer w) (_retracted w) (_last_stuck w)
    (_stick_to_edge w) (_retract_seconds w) (_long_press_ms w) (_draggable w)
    (_stick_indicator_style w) (floating_window_stick_to_edge w)
    (custom_retract_time w) (_auto_hide_timer w) (_original_position w)
    (animation w) (storage_window w) v (single_shots w) (settings w) (emitted
    w).
Definition set_single_shots (v : list (Z * Slot)) (w : Window) : Window :=
  mkWindow (geometry w) (_drag_timer w) (_dragging w) (_press_pos w)
    (_indicator w) (_retract_timer w) (_retracted w) (_last_stuck w)
    (_stick_to_edge w) (_retract_seconds w) (_long_press_ms w) (_draggable w)
    (_stick_indicator_style w) (floating_window_stick_to_edge w)
    (custom_retract_time w) (_auto_hide_timer w) (_original_position w)
    (animation w) (storage_window w) (arrow_widget w) v (settings w) (emitted
    w).
Definition set_settings (v : gmap (string * string) Z) (w : Window) : Window :=
  mkWindow (geometry w) (_drag_timer w) (_dragging w) (_press_pos w)
    (_indicator w) (_retract_timer w) (_retracted w) (_last_stuck w)
    (_stick_to_edge w) (_retract_seconds w) (_long_press_ms w) (_draggable w)
    (_stick_indicator_style w) (floating_window_stick_to_edge w)
    (custom_retract_time w) (_auto_hide_timer w) (_original_position w)
    (animation w) (storage_window w) (arrow_widget w) (single_shots w) v
    (emitted w).
Definition set_emitted (v : list Signal) (w : Window) : Window :=
  mkWindow (geometry w) (_drag_timer w) (_dragging w) (_press_pos w)
    (_indicator w) (_retract_timer w) (_retracted w) (_last_stuck w)
    (_stick_to_edge w) (_retract_seconds w) (_long_press_ms w) (_draggable w)
    (_stick_indicator_style w) (floating_window_stick_to_edge w)
    (custom_retract_time w) (_auto_hide_timer w) (_original_position w)
    (animation w) (storage_window w) (arrow_widget w) (single_shots w)
    (settings w) v.

(** How a handler ends: it returns, or [OverflowError] is raised in it and
    the statements after the raise do not run.  Either way the window is as
    the handler left it. *)
Inductive Outcome :=
| Returned (w : Window)
| Raised (w : Window).

Definition outcome_window (o : Outcome) : Window :=
  match o with Returned w | Raised w => w end.

(** ** Widget helpers *)

Definition win_x (w : Window) : Z := r_x (geometry w).
Definition win_y (w : Window) : Z := r_y (geometry w).
Definition win_width (w : Window) : Z := r_width (geometry w).
Definition win_height (w : Window) : Z := r_height (geometry w).
Definition win_pos (w : Window) : QPoint := r_pos (geometry w).

(** [self.move(x, y)]. *)
Definition move (x y : Z) (w : Window) : Window :=
  set_geometry (r_move (geometry w) x y) w.

(** [QTimer.singleShot(msec, slot)]. *)
Definition singleShot (msec : Z) (slot : Slot) (w : Window) : Window :=
  set_single_shots (single_shots w ++ [(msec, slot)]) w.

(** [if hasattr(self, "animation") and self.animation.state() == Running:
    self.animation.stop()]. *)
Definition stop_running_animation (w : Window) : Window :=
  match animation w with
  | Some a => if a_running a then set_animation (Some (animation_stop a)) w else w
  | None => w
  end.

(** [update_settings(first, second, value)] of the configuration store.
    A change notification the store sends for the write reaches the window
    as a [SettingChanged] event of its own. *)
Definition update_settings (first second : string) (value : Z) (w : Window)
    : Window :=
  set_settings (<[(first, second) := value]> (settings w)) w.

Definition emit (s : Signal) (w : Window) : Window :=
  set_emitted (emitted w ++ [s]) w.

(** ** Position persistence *)

Definition _save_position (w : Window) : Window :=
  let w := update_settings "float_position" "x" (win_x w) w in
  let w := update_settings "float_position" "y" (win_y w) w in
  emit (positionChanged (win_x w) (win_y w)) w.

(** ** The legacy pinned-edge indicator *)

Definition _clear_indicator (w : Window) : Window :=
  match _indicator w with
  | Some _ => set_indicator None w
  | None => w
  end.

Definition _show_indicator (direction : string) (w : Window) : Window :=
  let w := _clear_indicator w in
  let p :=
    if String.eqb direction "left" then mkPoint (-8) (win_height w / 2 - 8)
    else if String.eqb direction "right"
         then mkPoint (win_width w - 8) (win_height w / 2 - 8)
         else mkPoint (win_width w / 2 - 8) (-8) in
  set_indicator (Some p) w.

(** ** Drag detector *)

Definition _begin_drag (w : Window) : Window := set_dragging true w.

(** ** Retract timer *)

Definition _schedule_retract (w : Window) : Outcome :=
  if negb (_stick_to_edge w) then Returned w
  else if negb (_retract_seconds w =? 0) && (_retract_seconds w >? 0) then
    let w := set_retract_timer (timer_stop (_retract_timer w)) w in
    if fits_int (_retract_seconds w * 1000) then
      Returned
        (set_retract_timer
           (timer_start (_retract_timer w) (_retract_seconds w * 1000)) w)
    else Raised w
  else Returned w.

Definition _cancel_retract (w : Window) : Window :=
  if t_active (_retract_timer w)
  then set_retract_timer (timer_stop (_retract_timer w)) w
  else w.

(** ** Edge docking *)

Definition _stick_to_nearest_edge (env : Screens) (w : Window) : Window :=
  if negb (_stick_to_edge w) then w
  else
    let fg := geometry w in
    let geo := screen_geo env fg in
    let left := r_left fg - r_left geo in
    let right := r_right geo - r_right fg in
    let w := set_last_stuck false w in
    if left <=? _edge_threshold then
      let w := move (r_left geo) (win_y w) w in
      let w := if negb (floating_window_stick_to_edge w)
               then _show_indicator "left" w else w in
      set_last_stuck true w
    else if right <=? _edge_threshold then
      let w := move (r_right geo - win_width w + 1) (win_y w) w in
      let w := if negb (floating_window_stick_to_edge w)
               then _show_indicator "right" w else w in
      set_last_stuck true w
    else w.

Definition _retract_into_edge (env : Screens) (w : Window) : Window :=
  let fg := geometry w in
  let geo := screen_geo env fg in
  let handle := 16 in
  if win_x w <=? r_left geo then
    let w := move (r_left geo - win_width w + handle) (win_y w) w in
    let w := set_retracted true w in
    if negb (floating_window_stick_to_edge w)
    then _show_indicator "right" w else w
  else if win_x w + win_width w >=? r_right geo then
    let w := move (r_right geo - handle + 1) (win_y w) w in
    let w := set_retracted true w in
    if negb (floating_window_stick_to_edge w)
    then _show_indicator "left" w else w
  else w.

Definition _expand_from_edge (env : Screens) (w : Window) : Window :=
  let fg := geometry w in
  let geo := screen_geo env fg in
  let w :=
    if win_x w <? r_left geo then move (r_left geo) (win_y w) w
    else if win_x w + win_width w >? r_right geo
         then move (r_right geo - win_width w + 1) (win_y w) w
         else w in
  let w := set_retracted false w in
  _clear_indicator w.

(** ** Mouse handlers of the window *)

Definition mousePressEvent (button : MouseButton) (gpos : QPoint) (w : Window)
    : Window :=
  if is_left button && _draggable w then
    let w := set_press_pos gpos w in
    let w := set_dragging false w in
    let w := set_drag_timer (timer_stop (_drag_timer w)) w in
    set_drag_timer (timer_start (_drag_timer w) (_long_press_ms w)) w
  else w.

(** The body shared by [mouseMoveEvent] and the move branch of
    [eventFilter], after their guards. *)
Definition drag_move (cur : QPoint) (w : Window) : Window :=
  let w :=
    if negb (_dragging w) then
      let dx0 := pt_x cur - pt_x (_press_pos w) in
      let dy0 := pt_y cur - pt_y (_press_pos w) in
      if (Z.abs dx0 >=? 3) || (Z.abs dy0 >=? 3) then _begin_drag w else w
    else w in
  if _dragging w then
    let dx := pt_x cur - pt_x (_press_pos w) in
    let dy := pt_y cur - pt_y (_press_pos w) in
    let w := move (win_x w + dx) (win_y w + dy) w in
    let w := set_press_pos cur w in
    _cancel_retract w
  else w.

(** [left_down] is [e.buttons() & Qt.LeftButton]. *)
Definition mouseMoveEvent (left_down : bool) (gpos : QPoint) (w : Window)
    : Window :=
  if left_down && _draggable w then drag_move gpos w else w.

(** What both release handlers do once a drag ends.  A raise in
    [_schedule_retract] skips [_save_position]. *)
Definition drag_release (env : Screens) (w : Window) : Outcome :=
  let w := set_dragging false w in
  let w := _stick_to_nearest_edge env w in
  match (if _last_stuck w then _schedule_retract w
         else Returned (_clear_indicator w)) with
  | Returned w => Returned (_save_position w)
  | Raised w => Raised w
  end.

Definition mouseReleaseEvent (env : Screens) (button : MouseButton)
    (w : Window) : Window :=
  if is_left button then
    let w := set_drag_timer (timer_stop (_drag_timer w)) w in
    match (if _draggable w && _dragging w then drag_release env w
           else Returned w) with
    | Returned w =>
        if floating_window_stick_to_edge w
        then singleShot 100 Slot_check_edge_proximity w
        else w
    | Raised w => w
    end
  else w.

(** ** [eventFilter] (installed on the container and its children) *)

Definition filterPress (button : MouseButton) (gpos : QPoint) (w : Window)
    : Window :=
  if negb (_draggable w) then w
  else if is_left button then
    let w := set_press_pos gpos w in
    let w := set_dragging false w in
    let w := set_drag_timer (timer_stop (_drag_timer w)) w in
    set_drag_timer (timer_start (_drag_timer w) (_long_press_ms w)) w
  else w.

Definition filterMove (left_down : bool) (gpos : QPoint) (w : Window)
    : Window :=
  if negb (_draggable w) then w
  else if left_down then drag_move gpos w
  else w.

Definition filterRelease (env : Screens) (button : MouseButton) (w : Window)
    : Window :=
  if negb (_draggable w) then w
  else if is_left button then
    let w := set_drag_timer (timer_stop (_drag_timer w)) w in
    if _dragging w then
      match drag_release env w with
      | Returned w =>
          if floating_window_stick_to_edge w
          then singleShot 100 Slot_check_edge_proximity w
          else w
      | Raised w => w
      end
    else w
  else w.

(** ** Auto-hide indicators *)

Definition _delete_storage_window (w : Window) : Window :=
  match storage_window w with
  | Some _ => set_storage_window None w
  | None => w
  end.

(** [_create_storage_window(direction, x, y)]: a 30 x 30 window at (x, y). *)
Definition _create_storage_window (direction : string) (x y : Z) (w : Window)
    : Window :=
  let w := _delete_storage_window w in
  set_storage_window (Some (mkStorage (mkRect x y 30 30))) w.

Definition _delete_arrow_button (w : Window) : Window :=
  match arrow_widget w with
  | Some _ => set_arrow_widget None w
  | None => w
  end.

(** [_create_arrow_button(direction, x, y)]: a 30 x 30 widget at (x, y). *)
Definition _create_arrow_button (direction : string) (x y : Z) (w : Window)
    : Window :=
  let w := match arrow_widget w with
           | Some _ => _delete_arrow_button w
           | None => w
           end in
  set_arrow_widget (Some (mkArrow (mkRect x y 30 30) direction)) w.

(** ** The edge-proximity check (auto-hide collapse) *)

Definition _check_edge_proximity (env : Screens) (w : Window) : Window :=
  let w := stop_running_animation w in
  let w := _clear_indicator w in
  if negb (floating_window_stick_to_edge w) then w
  else
    let screen := primaryScreen env in
    let window_pos := win_pos w in
    let window_width := win_width w in
    let window_height := win_height w in
    let edge_threshold := 5 in
    let hidden_width := 10 in
    if pt_x window_pos <=? edge_threshold then
      let w := match _original_position w with
               | None => set_original_position (Some window_pos) w
               | Some _ => w
               end in
      let end_rect := mkRect (- window_width + hidden_width) (pt_y window_pos)
                        window_width window_height in
      set_animation
        (Some (mkAnimation true end_rect
                 [Cb_on_animation_finished "right" 0
                    (pt_y window_pos) window_height])) w
    else if pt_x window_pos + window_width >=? r_width screen - edge_threshold
    then
      let w := match _original_position w with
               | None => set_original_position (Some window_pos) w
               | Some _ => w
               end in
      let end_rect := mkRect (r_width screen - hidden_width) (pt_y window_pos)
                        window_width window_height in
      set_animation
        (Some (mkAnimation true end_rect
                 [Cb_on_animation_finished "left" (r_width screen - 30)
                    (pt_y window_pos) window_height])) w
    else
      let w :=
        if (pt_x window_pos >? edge_threshold)
           && (pt_x window_pos + window_width <? r_width screen - edge_threshold)
        then
          let w := if negb (_retracted w) then _save_position w else w in
          match _original_position w with
          | Some _ => set_original_position None w
          | None => w
          end
        else w in
      set_retracted false w.

(** [on_animation_finished] of [_check_edge_proximity]. *)
Definition on_animation_finished (direction : string) (ind_x : Z)
    (window_pos_y window_height : Z) (w : Window) : Window :=
  let w :=
    if _stick_indicator_style w =? 0
    then _create_storage_window direction ind_x
           (window_pos_y + window_height / 2 - 30) w
    else _create_arrow_button direction ind_x
           (window_pos_y + window_height / 2 - 15) w in
  set_retracted true w.

Definition _auto_hide_window (env : Screens) (w : Window) : Window :=
  if floating_window_stick_to_edge w then
    let w := match _auto_hide_timer w with
             | Some t => if t_active t
                         then set_auto_hide_timer (Some (timer_stop t)) w
                         else w
             | None => w
             end in
    _check_edge_proximity env w
  else w.

(** [self._auto_hide_timer = QTimer(self)], single shot, connected to
    [_auto_hide_window] and started.  A timer this assignment replaces
    stays a child of the window: if it is still running it will call
    [_auto_hide_window] once more, which is kept as a pending call.  The
    start is the last statement of the handlers that do this: when it
    raises, the new timer is left as created, not running. *)
Definition new_auto_hide_timer (w : Window) : Window :=
  let w := match _auto_hide_timer w with
           | Some t => if t_active t
                       then singleShot (t_interval t) Slot_auto_hide_window w
                       else w
           | None => w
           end in
  let msec := custom_retract_time w * 1000 in
  set_auto_hide_timer
    (Some (if fits_int msec then timer_start new_single_shot_timer msec
           else new_single_shot_timer)) w.

Definition enterEvent (w : Window) : Window :=
  match _auto_hide_timer w with
  | Some _ => set_auto_hide_timer None w   (* stopped if active, then delattr *)
  | None => w
  end.

Definition leaveEvent (w : Window) : Window :=
  match (if _retracted w then _schedule_retract w else Returned w) with
  | Returned w =>
      if floating_window_stick_to_edge w && negb (_retracted w) then
        let w := match _auto_hide_timer w with
                 | Some t => if t_active t
                             then set_auto_hide_timer (Some (timer_stop t)) w
                             else w
                 | None => w
                 end in
        new_auto_hide_timer w
      else w
  | Raised w => w
  end.

(** ** Expanding from the storage window *)

(** [on_main_animation_finished] of [_expand_window]. *)
Definition on_main_animation_finished (w : Window) : Window :=
  let w := set_retracted false w in
  new_auto_hide_timer w.

(** [on_storage_animation_finished] of [_expand_window].  Without a saved
    original position and with the window inside the screen, [target_x] is
    never bound: the slot raises there and the rest of it does not run. *)
Definition on_storage_animation_finished (screen : QRect)
    (window_width window_height : Z) (w : Window) : Window :=
  let w := _delete_storage_window w in
  let target : option (Z * Z) :=
    match _original_position w with
    | Some p => Some (pt_x p, pt_y p)
    | None =>
        if win_x w <? r_left screen then Some (r_left screen, win_y w)
        else if win_x w + window_width >? r_right screen
             then Some (r_right screen - window_width + 1, win_y w)
             else None
    end in
  match target with
  | Some (target_x, target_y) =>
      set_animation
        (Some (mkAnimation true
                 (mkRect target_x target_y window_width window_height)
                 [Cb_on_main_animation_finished])) w
  | None =>
      (* [self.animation] has already been replaced by a new animation that
         got its start value and is never started *)
      set_animation (Some (mkAnimation false (geometry w) [])) w
  end.

(** [_expand_window].  [storage_animation] is a local variable: a
    [QPropertyAnimation] without parent, referenced by nothing else, which
    is destroyed when the function returns.  It has then only set its
    target to the start value, the geometry the storage window has
    already, and [finished], to which [on_storage_animation_finished] is
    connected, is never emitted: of the whole function, stopping a running
    [self.animation] is all that lasts. *)
Definition _expand_window (env : Screens) (w : Window) : Window :=
  match storage_window w with
  | None => w
  | Some sw =>
      let storage_pos := sw_geometry sw in
      let screen := primaryScreen env in
      let storage_end_rect :=
        if r_x storage_pos <? r_width screen / 2
        then mkRect (r_width screen) (r_y storage_pos)
               (r_width storage_pos) (r_height storage_pos)
        else mkRect (- r_width storage_pos) (r_y storage_pos)
               (r_width storage_pos) (r_height storage_pos) in
      let window_width := win_width w in
      let window_height := win_height w in
      let w := stop_running_animation w in
      let storage_animation :=
        mkAnimation true storage_end_rect
          [Cb_on_storage_animation_finished screen
             window_width window_height] in
      (* storage_animation.start(); return *)
      w
  end.

(** ** Expanding from the arrow button *)

Definition _show_hidden_window (env : Screens) (direction : string)
    (w : Window) : Window :=
  let w := stop_running_animation w in
  let screen := primaryScreen env in
  let window_width := win_width w in
  let window_height := win_height w in
  let '(arrow_pos_y, arrow_height) :=
    match arrow_widget w with
    | Some a => (r_y (arrow_geometry a), r_height (arrow_geometry a))
    | None => (win_y w, 30)
    end in
  let window_y := arrow_pos_y + arrow_height / 2 - window_height / 2 in
  let window_y :=
    if window_y <? r_top screen then r_top screen
    else if window_y + window_height >? r_bottom screen
         then r_bottom screen - window_height
         else window_y in
  let end_rect :=
    if String.eqb direction "right"
    then mkRect (r_left screen) window_y window_width window_height
    else mkRect (r_right screen - window_width + 1) window_y
           window_width window_height in
  let w := set_animation (Some (mkAnimation true end_rect [])) w in
  let w := _delete_arrow_button w in
  let retract_time := custom_retract_time w * 1000 in
  (* the last statement: when it raises, nothing is queued *)
  if fits_int retract_time
  then singleShot retract_time Slot_auto_hide_window w
  else w.

(** ** Configuration changes *)

(** [value or d] on an integer: zero is falsy. *)
Definition py_or (value d : Z) : Z := if value =? 0 then d else value.
(** [bool(value)]. *)
Definition py_bool (value : Z) : bool := negb (value =? 0).

(** [_on_setting_changed(first, second, value)].  The keys that only touch
    visibility, opacity, the button layout or the theme are left out: they
    change nothing of the state modelled here. *)
Definition _on_setting_changed (env : Screens) (first second : string)
    (value : Z) (w : Window) : Window :=
  if String.eqb first "floating_window_management" then
    if String.eqb second "floating_window_stick_to_edge" then
      set_stick_to_edge (py_bool value) w
    else if String.eqb second "floating_window_stick_to_edge_recover_seconds" then
      set_retract_seconds (py_or value 0) w
    else if String.eqb second "floating_window_long_press_duration" then
      set_long_press_ms (py_or value 500) w
    else if String.eqb second "floating_window_stick_to_edge_display_style" then
      set_stick_indicator_style (py_or value 0) w
    else if String.eqb second "floating_window_draggable" then
      set_draggable (py_bool value) w
    else if String.eqb second "flash_window_side_switch" then
      let w := set_floating_window_stick_to_edge (py_bool value) w in
      if py_bool value then singleShot 100 Slot_check_edge_proximity w
      else
        let w := _delete_storage_window w in
        if _retracted w then _expand_from_edge env w else w
    else if String.eqb second "custom_retract_time" then
      set_custom_retract_time (py_or value 5) w
    else w
  else if String.eqb first "float_position" then
    if String.eqb second "x" then
      let x := py_or value 0 in
      let '(nx, ny) := _clamp_to_screen env (geometry w) x (win_y w) in
      move nx ny w
    else if String.eqb second "y" then
      let y := py_or value 0 in
      let '(nx, ny) := _clamp_to_screen env (geometry w) (win_x w) y in
      move nx ny w
    else w
  else w.

(** ** The event loop *)

Definition run_slot (env : Screens) (s : Slot) (w : Window) : Window :=
  match s with
  | Slot_begin_drag => _begin_drag w
  | Slot_auto_hide_window => _auto_hide_window env w
  | Slot_check_edge_proximity => _check_edge_proximity env w
  end.

Definition run_slots (env : Screens) (slots : list Slot) (w : Window) : Window :=
  foldl (fun w s => run_slot env s w) w slots.

Definition run_callback (c : Callback) (w : Window) : Window :=
  match c with
  | Cb_on_animation_finished d x wy wh => on_animation_finished d x wy wh w
  | Cb_on_storage_animation_finished scr ww wh =>
      on_storage_animation_finished scr ww wh w
  | Cb_on_main_animation_finished => on_main_animation_finished w
  end.

Definition run_callbacks (cbs : list Callback) (w : Window) : Window :=
  foldl (fun w c => run_callback c w) w cbs.

(** What the Qt event loop can deliver to the window.  A timeout or a
    [finished] event is delivered only while its timer or animation runs;
    a click on an indicator only while that indicator exists.
    [AnimationFinished] is the end of [self.animation], the one animation
    the window keeps a reference to. *)
Inductive Event :=
| MousePress (button : MouseButton) (gpos : QPoint)
| MouseMove (left_down : bool) (gpos : QPoint)
| MouseRelease (button : MouseButton)
| FilterPress (button : MouseButton) (gpos : QPoint)
| FilterMove (left_down : bool) (gpos : QPoint)
| FilterRelease (button : MouseButton)
| Enter
| Leave
| DragTimerTimeout
| RetractTimerTimeout
| AutoHideTimerTimeout
| SingleShotTimeout (i : nat)
| AnimationFinished
| StorageClicked
| ArrowClicked
| SettingChanged (first second : string) (value : Z).

Definition step (env : Screens) (w : Window) (e : Event) : Window :=
  match e with
  | MousePress b p => mousePressEvent b p w
  | MouseMove l p => mouseMoveEvent l p w
  | MouseRelease b => mouseReleaseEvent env b w
  | FilterPress b p => filterPress b p w
  | FilterMove l p => filterMove l p w
  | FilterRelease b => filterRelease env b w
  | Enter => enterEvent w
  | Leave => leaveEvent w
  | DragTimerTimeout =>
      if t_active (_drag_timer w) then
        run_slots env _drag_timer_slots
          (set_drag_timer (timer_timed_out (_drag_timer w)) w)
      else w
  | RetractTimerTimeout =>
      if t_active (_retract_timer w) then
        run_slots env _retract_timer_slots
          (set_retract_timer (timer_timed_out (_retract_timer w)) w)
      else w
  | AutoHideTimerTimeout =>
      match _auto_hide_timer w with
      | Some t =>
          if t_active t then
            run_slots env _auto_hide_timer_slots
              (set_auto_hide_timer (Some (timer_timed_out t)) w)
          else w
      | None => w
      end
  | SingleShotTimeout i =>
      match single_shots w !! i with
      | Some (_, s) => run_slot env s (set_single_shots (delete i (single_shots w)) w)
      | None => w
      end
  | AnimationFinished =>
      match animation w with
      | Some a =>
          if a_running a then
            let w := set_geometry (a_end a) w in
            let w := set_animation (Some (animation_stop a)) w in
            run_callbacks (a_finished a) w
          else w
      | None => w
      end
  | StorageClicked => _expand_window env w
  | ArrowClicked =>
      match arrow_widget w with
      | Some a => _show_hidden_window env (arrow_direction a) w
      | None => w
      end
  | SettingChanged f s v => _on_setting_changed env f s v w
  end.

(** The window after a sequence of events, and the states it goes through. *)
Definition run (env : Screens) (w : Window) (evs : list Event) : Window :=
  foldl (step env) w evs.

Fixpoint states (env : Screens) (w : Window) (evs : list Event) : list Window :=
  match evs with
  | [] => []
  | e :: rest => step env w e :: states env (step env w e) rest
  end.

(** ** Construction *)

(** [readme_settings_async(first, second)]: the stored value, or [None]. *)
Definition readme_settings (store : gmap (string * string) Z)
    (first second : string) : option Z :=
  store !! (first, second).

(** [v or d] where [v] may be [None]. *)
Definition opt_or (v : option Z) (d : Z) : Z :=
  match v with Some x => py_or x d | None => d end.
Definition opt_bool (v : option Z) : bool :=
  match v with Some x => py_bool x | None => false end.

(** [__init__]: the attributes it sets, [_init_settings] and
    [_apply_position].  [width] and [height] are the size the layout gives
    the window in [_build_ui]. *)
Definition init (env : Screens) (store : gmap (string * string) Z)
    (width height : Z) : Window :=
  let fwm := "floating_window_management" in
  let w :=
    mkWindow (mkRect 0 0 width height)
      (* _drag_timer, _dragging, _press_pos, _indicator *)
      new_single_shot_timer false (mkPoint 0 0) None
      (* _retract_timer, _retracted, _last_stuck *)
      new_single_shot_timer false false
      (* _stick_to_edge *)
      (opt_bool (readme_settings store fwm "floating_window_stick_to_edge"))
      (* _retract_seconds *)
      (opt_or (readme_settings store fwm
                 "floating_window_stick_to_edge_recover_seconds") 0)
      (* _long_press_ms *)
      (opt_or (readme_settings store fwm "floating_window_long_press_duration")
         500)
      (* _draggable = bool(... or True) *)
      true
      (* _stick_indicator_style *)
      (opt_or (readme_settings store fwm
                 "floating_window_stick_to_edge_display_style") 0)
      (* floating_window_stick_to_edge = bool(... or False) *)
      (opt_bool (readme_settings store fwm "floating_window_stick_to_edge"))
      (* custom_retract_time *)
      (opt_or (readme_settings store fwm
                 "floating_window_stick_to_edge_recover_seconds") 5)
      (* _auto_hide_timer, _original_position, animation *)
      None None None
      (* storage_window, arrow_widget, single_shots *)
      None None []
      store [] in
  let x := opt_or (readme_settings store "float_position" "x") 100 in
  let y := opt_or (readme_settings store "float_position" "y") 100 in
  let '(nx, ny) := _clamp_to_screen env (geometry w) x y in
  move nx ny w.

(** ** Creating the buttons *)

(** The five request signals of the window. *)
Inductive ActionSignal :=
| rollCallRequested
| quickDrawRequested
| instantDrawRequested
| customDrawRequested
| lotteryRequested.

#[global] Instance ActionSignal_eq_dec : EqDecision ActionSignal.
Proof. solve_decision. Defined.

(** What [_create_button(spec)] chooses from the spec: the icon name, the
    index of the label in [names] and the signal [clicked] is connected
    to.  Any spec that is none of the first four gets the lottery button. *)
Record ButtonParts := mkButtonParts {
  btn_icon : string;
  btn_text : nat;
  btn_sig : ActionSignal
}.

Definition _create_button (spec : string) : ButtonParts :=
  if String.eqb spec "roll_call" then
    mkButtonParts "ic_fluent_people_20_filled" 0 rollCallRequested
  else if String.eqb spec "quick_draw" then
    mkButtonParts "ic_fluent_flash_20_filled" 1 quickDrawRequested
  else if String.eqb spec "instant_draw" then
    mkButtonParts "ic_fluent_play_20_filled" 2 instantDrawRequested
  else if String.eqb spec "custom_draw" then
    mkButtonParts "ic_fluent_edit_20_filled" 3 customDrawRequested
  else
    mkButtonParts "ic_fluent_gift_20_filled" 4 lotteryRequested.

(** ** Dragging the storage window *)

(** The attributes [_create_storage_window] sets for the drag:
    [_storage_dragging], [_storage_drag_start] and [_storage_initial_x]. *)
Record StorageDrag := mkStorageDrag {
  _storage_dragging : bool;
  _storage_drag_start : QPoint;
  _storage_initial_x : Z
}.

(** As [_create_storage_window(direction, x, y)] leaves them. *)
Definition new_storage_drag (x : Z) : StorageDrag :=
  mkStorageDrag false (mkPoint 0 0) x.

(** [_on_storage_press]; [pos] is [event.pos()], in the coordinates of the
    storage window. *)
Definition _on_storage_press (button : MouseButton) (pos : QPoint)
    (d : StorageDrag) : StorageDrag :=
  if is_left button
  then mkStorageDrag false pos (_storage_initial_x d)
  else d.

(** [_on_storage_move].  Reading [self.storage_window.y()] when the window
    is gone raises, which ends the handler there. *)
Definition _on_storage_move (env : Screens) (left_down : bool) (pos : QPoint)
    (d : StorageDrag) (w : Window) : StorageDrag * Window :=
  if left_down then
    let delta_y := pt_y pos - pt_y (_storage_drag_start d) in
    let d :=
      if negb (_storage_dragging d) then
        if Z.abs delta_y >? 3
        then mkStorageDrag true (_storage_drag_start d) (_storage_initial_x d)
        else d
      else d in
    if _storage_dragging d then
      match storage_window w with
      | Some sw =>
          let new_y := r_y (sw_geometry sw) + delta_y in
          let screen := primaryScreen env in
          let new_y :=
            Z.max (r_top screen)
              (Z.min new_y (r_bottom screen - r_height (sw_geometry sw))) in
          let moved := r_move (sw_geometry sw) (_storage_initial_x d) new_y in
          (d, set_storage_window (Some (mkStorage moved)) w)
      | None => (d, w)
      end
    else (d, w)
  else (d, w).

(** [_smart_snap_to_edge].  [snap_animation] is a local variable like the
    exit animation of [_expand_window]: it is destroyed when the function
    returns, having set the storage window to the start value, the geometry
    it has already, so the window is never moved to [end_rect]. *)
Definition _smart_snap_to_edge (env : Screens) (d : StorageDrag) (w : Window)
    : Window :=
  match storage_window w with
  | None => w
  | Some sw =>
      let screen := primaryScreen env in
      let current_pos := r_pos (sw_geometry sw) in
      let window_height := r_height (sw_geometry sw) in
      let snap_threshold := 50 in
      let target_y :=
        if pt_y current_pos <? r_top screen + snap_threshold then
          r_top screen + 10
        else if pt_y current_pos + window_height
                >? r_bottom screen - snap_threshold then
          r_bottom screen - window_height - 10
        else
          let screen_center_y := pt_y (r_center screen) in
          if Z.abs (pt_y current_pos + window_height / 2 - screen_center_y)
             <? snap_threshold
          then screen_center_y - window_height / 2
          else pt_y current_pos in
      if negb (target_y =? pt_y current_pos) then
        let start_rect := sw_geometry sw in
        let end_rect := mkRect (_storage_initial_x d) target_y
                          (r_width start_rect) (r_height start_rect) in
        let snap_animation := mkAnimation true end_rect [] in
        (* snap_animation.start(); return *)
        w
      else w
  end.

(** [_on_storage_release]. *)
Definition _on_storage_release (env : Screens) (button : MouseButton)
    (d : StorageDrag) (w : Window) : StorageDrag * Window :=
  match button with
  | LeftButton =>
      let w := if _storage_dragging d
               then _smart_snap_to_edge env d w
               else _expand_window env w in
      (mkStorageDrag false (_storage_drag_start d) (_storage_initial_x d), w)
  | RightButton =>
      if negb (_storage_dragging d) then (d, _expand_window env w) else (d, w)
  | MiddleButton => (d, w)
  end.

(** The pointer events the storage window receives. *)
Inductive StorageEvent :=
| StoragePress (button : MouseButton) (pos : QPoint)
| StorageMove (left_down : bool) (pos : QPoint)
| StorageRelease (button : MouseButton).

Definition storage_step (env : Screens) (s : StorageDrag * Window)
    (e : StorageEvent) : StorageDrag * Window :=
  match e with
  | StoragePress b p => (_on_storage_press b p s.1, s.2)
  | StorageMove l p => _on_storage_move env l p s.1 s.2
  | StorageRelease b => _on_storage_release env b s.1 s.2
  end.

Definition storage_run (env : Screens) (s : StorageDrag * Window)
    (evs : list StorageEvent) : StorageDrag * Window :=
  foldl (storage_step env) s evs.

(** ** [DraggableWidget], the container of the arrow button *)

Module DraggableWidget.

(** The attributes of a [DraggableWidget].  [parent_pos] is the position of
    [self.parent()] when the widget has one; [_was_dragging] is set by the
    first press only ([None]: [hasattr] is false).  The keep-on-top timer
    only raises the widget and is left out. *)
Record t := mk {
  widget_pos : QPoint;
  parent_pos : option QPoint;
  _dragging : bool;
  _drag_start_y : Z;
  _original_y : Z;
  _fixed_x : Z;
  _press_start_time : Z;
  _long_press_duration : Z;
  _long_press_timer : QTimer;
  _long_press_triggered : bool;
  _was_dragging : option bool
}.

(** [DraggableWidget(parent)] followed by [move(x, y)]. *)
Definition init (parent : option QPoint) (x y : Z) : t :=
  mk (mkPoint x y) parent false 0 0 0 0 100 new_single_shot_timer false None.

Definition setFixedX (x : Z) (d : t) : t :=
  mk (widget_pos d) (parent_pos d) (_dragging d) (_drag_start_y d)
    (_original_y d) x (_press_start_time d) (_long_press_duration d)
    (_long_press_timer d) (_long_press_triggered d) (_was_dragging d).

Definition _on_long_press (d : t) : t :=
  mk (widget_pos d) (parent_pos d) (_dragging d) (_drag_start_y d)
    (_original_y d) (_fixed_x d) (_press_start_time d)
    (_long_press_duration d) (_long_press_timer d) true (_was_dragging d).

(** [mousePressEvent]; [now] is [QDateTime.currentMSecsSinceEpoch()] and
    [globalY] is [event.globalY()]. *)
Definition mousePressEvent (button : MouseButton) (now globalY : Z) (d : t)
    : t :=
  if is_left button then
    mk (widget_pos d) (parent_pos d) (_dragging d) globalY
      (pt_y (widget_pos d)) (_fixed_x d) now (_long_press_duration d)
      (timer_start (_long_press_timer d) (_long_press_duration d))
      false (Some false)
  else d.

Definition mouseMoveEvent (left_down : bool) (now globalY : Z) (d : t) : t :=
  if left_down then
    if _long_press_triggered d
       || ((now - _press_start_time d >? 100)
           && (Z.abs (globalY - _drag_start_y d) >? 5))
    then
      let d :=
        if negb (_dragging d) then
          mk (widget_pos d) (parent_pos d) true (_drag_start_y d)
            (_original_y d) (_fixed_x d) (_press_start_time d)
            (_long_press_duration d)
            (if negb (_long_press_triggered d)
             then timer_stop (_long_press_timer d)
             else _long_press_timer d)
            (_long_press_triggered d) (Some true)
        else d in
      let new_y := _original_y d + (globalY - _drag_start_y d) in
      mk (mkPoint (_fixed_x d) new_y)
        (match parent_pos d with
         | Some p => Some (mkPoint (pt_x p) new_y)
         | None => None
         end)
        (_dragging d) (_drag_start_y d) (_original_y d) (_fixed_x d)
        (_press_start_time d) (_long_press_duration d) (_long_press_timer d)
        (_long_press_triggered d) (_was_dragging d)
    else d
  else d.

Definition mouseReleaseEvent (button : MouseButton) (d : t) : t :=
  if is_left button then
    mk (widget_pos d) (parent_pos d) false (_drag_start_y d) (_original_y d)
      (_fixed_x d) (_press_start_time d) (_long_press_duration d)
      (timer_stop (_long_press_timer d)) (_long_press_triggered d)
      (_was_dragging d)
  else d.

(** The events the widget receives; [LongPressTimeout] is the timeout of
    [_long_press_timer], delivered only while the timer runs. *)
Inductive Event :=
| Press (button : MouseButton) (now globalY : Z)
| Move (left_down : bool) (now globalY : Z)
| Release (button : MouseButton)
| LongPressTimeout.

Definition step (d : t) (e : Event) : t :=
  match e with
  | Press b now gy => mousePressEvent b now gy d
  | Move l now gy => mouseMoveEvent l now gy d
  | Release b => mouseReleaseEvent b d
  | LongPressTimeout =>
      if t_active (_long_press_timer d) then
        _on_long_press
          (mk (widget_pos d) (parent_pos d) (_dragging d) (_drag_start_y d)
             (_original_y d) (_fixed_x d) (_press_start_time d)
             (_long_press_duration d) (timer_timed_out (_long_press_timer d))
             (_long_press_triggered d) (_was_dragging d))
      else d
  end.

Definition run (d : t) (evs : list Event) : t := foldl step d evs.

End DraggableWidget.

(** [handle_click] of [_create_arrow_button]: the test it makes on the arrow
    widget. *)
Definition handle_click_fires (d : DraggableWidget.t) : bool :=
  match DraggableWidget._was_dragging d with
  | Some b => negb b
  | None => true
  end
  && negb (DraggableWidget._dragging d).

(** [new_mouse_release] of [_create_arrow_button]: the widget's own release
    handler, then [handle_click] for the left button. *)
Definition new_mouse_release (env : Screens) (direction : string)
    (button : MouseButton) (d : DraggableWidget.t) (w : Window)
    : DraggableWidget.t * Window :=
  let d := DraggableWidget.mouseReleaseEvent button d in
  if is_left button then
    if handle_click_fires d
    then (d, _show_hidden_window env direction w)
    else (d, w)
  else (d, w).

(** * Theme icons ([app/tools/personalised.py]) *)

Module Personalised.

(** The argument of [get_theme_icon]: an icon name or a code point. *)
Inductive IconName :=
| NameStr (s : string)
| NameInt (n : Z).

#[global] Instance IconName_eq_dec : EqDecision IconName.
Proof. solve_decision. Defined.

#[global] Instance IconName_countable : Countable IconName.
Proof.
  apply (inj_countable'
           (fun n => match n with NameStr s => inl s | NameInt n => inr n end)
           (fun x => match x with inl s => NameStr s | inr n => NameInt n end)).
  by intros [].
Defined.

(** A Python string made by [chr], or one passed through as it came. *)
Inductive PyStr :=
| Chr (code_point : Z)
| Str (s : string).

(** [FluentSystemIcons(char)], or the null [QIcon()]. *)
Inductive QIcon :=
| FluentSystemIcons (char : PyStr)
| QIcon_null.

(** What the module reads from outside: the dictionary the first
    [_get_icon_map()] ends up with (the parsed JSON file, [{}] when the file
    is empty or cannot be read), the constant [DEFAULT_ICON_CODEPOINT] and
    [int(s, 16)] ([None]: [ValueError]). *)
Record Env := mkEnv {
  icon_map_file : gmap string Z;
  DEFAULT_ICON_CODEPOINT : Z;
  int16 : string -> option Z
}.

(** The module globals. *)
Record State := mkState {
  _icon_cache : gmap IconName QIcon;
  _icon_map_cache : option (gmap string Z)
}.

(** [chr(i)]; [None] is the [ValueError] outside [range(0x110000)]. *)
Definition chr (i : Z) : option Z :=
  if (0 <=? i) && (i <? 1114112) then Some i else None.

(** [isinstance(icon_name, str) and icon_name.startswith("\\u")] *)
Definition is_escape (icon_name : IconName) : bool :=
  match icon_name with
  | NameStr s => String.prefix "\u" s
  | NameInt _ => false
  end.

Definition _get_icon_map (env : Env) (st : State) : gmap string Z * State :=
  match _icon_map_cache st with
  | None =>
      (icon_map_file env,
       mkState (_icon_cache st) (Some (icon_map_file env)))
  | Some m => (m, st)
  end.

(** [None] is an exception ([ValueError] of [int] or [chr]). *)
Definition _convert_icon_name_to_char (env : Env) (icon_name : IconName)
    : option PyStr :=
  match icon_name with
  | NameStr s =>
      if is_escape icon_name then
        match int16 env (String.substring 2 (String.length s - 2) s) with
        | Some code_point => Chr <$> chr code_point
        | None => None
        end
      else Some (Str s)
  | NameInt n => Chr <$> chr n
  end.

(** [None] is an exception: the [ValueError] for a name missing from the
    map, or one of [_convert_icon_name_to_char] or [chr]. *)
Definition _create_icon_from_name (env : Env) (icon_name : IconName)
    (st : State) : option QIcon * State :=
  match icon_name with
  | NameStr s =>
      if negb (is_escape icon_name) then
        let '(icon_map, st) := _get_icon_map env st in
        match icon_map !! s with
        | Some code_point =>
            (FluentSystemIcons <$> (Chr <$> chr code_point), st)
        | None => (None, st)
        end
      else (FluentSystemIcons <$> _convert_icon_name_to_char env icon_name, st)
  | NameInt _ =>
      (FluentSystemIcons <$> _convert_icon_name_to_char env icon_name, st)
  end.

Definition _get_default_icon (env : Env) (icon_name : IconName) (st : State)
    : QIcon * State :=
  match chr (DEFAULT_ICON_CODEPOINT env) with
  | Some default_char =>
      let default_icon := FluentSystemIcons (Chr default_char) in
      (default_icon,
       mkState (<[icon_name := default_icon]> (_icon_cache st))
         (_icon_map_cache st))
  | None => (QIcon_null, st)
  end.

(** [get_theme_icon]; a [FluentSystemIcons] object is true in [if icon:]. *)
Definition get_theme_icon (env : Env) (icon_name : IconName) (st : State)
    : QIcon * State :=
  match _icon_cache st !! icon_name with
  | Some icon => (icon, st)
  | None =>
      match _create_icon_from_name env icon_name st with
      | (Some icon, st) =>
          (icon,
           mkState (<[icon_name := icon]> (_icon_cache st))
             (_icon_map_cache st))
      | (None, st) => _get_default_icon env icon_name st
      end
  end.

(** Calls of [get_theme_icon] one after the other, results dropped. *)
Definition get_theme_icons (env : Env) (st : State) (names : list IconName)
    : State :=
  foldl (fun st icon_name => (get_theme_icon env icon_name st).2) st names.

End Personalised.

(** * Vocabulary of the properties *)

(** ** Example inputs *)

(** A single 1920 x 1080 screen at the origin. *)
Definition screen_1080p : Screens :=
  mkScreens (fun _ => None) (mkRect 0 0 1920 1080).

(** Stored settings: stick-to-edge on with a delay of 5 s; the same with
    the panel stored at (3, 300); the same with indicator style 1. *)
Definition store_stick_5s : gmap (string * string) Z :=
  <[("floating_window_management", "floating_window_stick_to_edge") := 1]>
  (<[("floating_window_management",
      "floating_window_stick_to_edge_recover_seconds") := 5]> ∅).

Definition store_docked_legacy : gmap (string * string) Z :=
  <[("float_position", "x") := 3]>
  (<[("float_position", "y") := 300]> store_stick_5s).

Definition store_docked_arrow : gmap (string * string) Z :=
  <[("floating_window_management",
     "floating_window_stick_to_edge_display_style") := 1]> store_docked_legacy.

(** A window of 200 x 100 at (x, y), fresh from [__init__] with the given
    store contents. *)
Definition window_at (store : gmap (string * string) Z) (x y : Z) : Window :=
  set_geometry (mkRect x y 200 100) (init screen_1080p store 200 100).

(** ** Drag detector *)

(** A move event whose cursor stays less than 3 px from [origin] on both
    axes. *)
Definition small_move (origin : QPoint) (e : Event) : Prop :=
  match e with
  | MouseMove _ p | FilterMove _ p =>
      Z.abs (pt_x p - pt_x origin) < 3 /\ Z.abs (pt_y p - pt_y origin) < 3
  | _ => False
  end.

(** Between a press at [origin] and the start of a drag. *)
Definition pressed_at (origin : QPoint) (w : Window) : Prop :=
  _dragging w = false /\ (_draggable w = true -> _press_pos w = origin).

(** ** Collapse and expand *)

(** The [animation] field after [stop_running_animation]. *)
Definition stopped (o : option QPropertyAnimation) : option QPropertyAnimation :=
  match o with
  | Some a => Some (if a_running a then animation_stop a else a)
  | None => None
  end.

(** The panel is at an edge in the sense of the proximity check. *)
Definition at_edge (env : Screens) (w : Window) : Prop :=
  win_x w <= 5 \/ win_x w + win_width w >= r_width (primaryScreen env) - 5.

(** The animation the proximity check starts at an edge: to the left when
    the window is within 5 px of x = 0, else to the right. *)
Definition collapse_animation (env : Screens) (w : Window) : QPropertyAnimation :=
  if win_x w <=? 5 then
    mkAnimation true
      (mkRect (- win_width w + 10) (win_y w) (win_width w) (win_height w))
      [Cb_on_animation_finished "right" 0 (win_y w) (win_height w)]
  else
    mkAnimation true
      (mkRect (r_width (primaryScreen env) - 10) (win_y w)
         (win_width w) (win_height w))
      [Cb_on_animation_finished "left" (r_width (primaryScreen env) - 30)
         (win_y w) (win_height w)].

(** ** Position persistence *)

(** What [_save_position] writes: the configuration store and the signals
    emitted. *)
Definition persisted (w : Window) : gmap (string * string) Z * list Signal :=
  (settings w, emitted w).

(** The stored coordinates. *)
Definition float_position (w : Window) : option Z * option Z :=
  (settings w !! ("float_position", "x"), settings w !! ("float_position", "y")).

(** The proximity check writes the position in its settled branch only:
    auto-hide on, away from both edges, not retracted. *)
Definition settled_check (env : Screens) (w : Window) : bool :=
  floating_window_stick_to_edge w
  && negb (win_x w <=? 5)
  && negb (win_x w + win_width w >=? r_width (primaryScreen env) - 5)
  && negb (_retracted w).

(** The events that settle a user move: the release that ends a drag, and a
    proximity check (queued by [QTimer.singleShot] or run by the auto-hide
    timer) that finds the panel settled away from the edges. *)
Definition user_settle (env : Screens) (w : Window) (e : Event) : bool :=
  match e with
  | MouseRelease b => is_left b && (_draggable w && _dragging w)
  | FilterRelease b => _draggable w && is_left b && _dragging w
  | SingleShotTimeout i =>
      match single_shots w !! i with
      | Some (_, Slot_check_edge_proximity)
      | Some (_, Slot_auto_hide_window) => settled_check env w
      | _ => false
      end
  | AutoHideTimerTimeout =>
      match _auto_hide_timer w with
      | Some t => t_active t && settled_check env w
      | None => false
      end
  | _ => false
  end.

(** The events of the automated collapse and expand paths: the end of the
    panel's animation and the clicks on the two indicators. *)
Definition collapse_expand_event (e : Event) : bool :=
  match e with
  | AnimationFinished | StorageClicked | ArrowClicked => true
  | _ => false
  end.

(** ** Edge docking *)

(** [_stick_to_nearest_edge] once the display [geo] has been looked up. *)
Definition stick_on (geo : QRect) (w : Window) : Window :=
  if negb (_stick_to_edge w) then w
  else
    let fg := geometry w in
    let left := r_left fg - r_left geo in
    let right := r_right geo - r_right fg in
    let w := set_last_stuck false w in
    if left <=? _edge_threshold then
      let w := move (r_left geo) (win_y w) w in
      let w := if negb (floating_window_stick_to_edge w)
               then _show_indicator "left" w else w in
      set_last_stuck true w
    else if right <=? _edge_threshold then
      let w := move (r_right geo - win_width w + 1) (win_y w) w in
      let w := if negb (floating_window_stick_to_edge w)
               then _show_indicator "right" w else w in
      set_last_stuck true w
    else w.

(** [_retract_into_edge] and [_expand_from_edge] once the display [geo] has
    been looked up. *)
Definition retract_on (geo : QRect) (w : Window) : Window :=
  let handle := 16 in
  if win_x w <=? r_left geo then
    let w := move (r_left geo - win_width w + handle) (win_y w) w in
    let w := set_retracted true w in
    if negb (floating_window_stick_to_edge w)
    then _show_indicator "right" w else w
  else if win_x w + win_width w >=? r_right geo then
    let w := move (r_right geo - handle + 1) (win_y w) w in
    let w := set_retracted true w in
    if negb (floating_window_stick_to_edge w)
    then _show_indicator "left" w else w
  else w.

Definition expand_on (geo : QRect) (w : Window) : Window :=
  let w :=
    if win_x w <? r_left geo then move (r_left geo) (win_y w) w
    else if win_x w + win_width w >? r_right geo
         then move (r_right geo - win_width w + 1) (win_y w) w
         else w in
  let w := set_retracted false w in
  _clear_indicator w.

(** The panel lies between the left and right edges of [geo]. *)
Definition inside_horizontally (r geo : QRect) : Prop :=
  r_left geo <= r_left r /\ r_right r <= r_right geo.

(** ** Dragging *)

(** The events delivered between a press and its release: pointer moves
    and the long-press timeout. *)
Definition drag_phase (e : Event) : Prop :=
  match e with
  | MouseMove _ _ | FilterMove _ _ | DragTimerTimeout => True
  | _ => False
  end.

(** The point of the panel under the pointer: the panel's position
    relative to the last recorded pointer position. *)
Definition grab_offset (w : Window) : Z * Z :=
  (win_x w - pt_x (_press_pos w), win_y w - pt_y (_press_pos w)).

(** ** Buttons *)

(** The five action names [_create_button] tells apart. *)
Definition known_actions : list string :=
  ["roll_call"; "quick_draw"; "instant_draw"; "custom_draw"; "lottery"].

(** What a row of the table must satisfy for its buttons to be told apart:
    known actions only, and no signal connected twice. *)
Definition row_ok (row : list string) : Prop :=
  Forall (fun spec => spec ∈ known_actions) row /\
  NoDup (btn_sig <$> (_create_button <$> row)) /\
  (0 < length row <= 4)%nat.

#[global] Instance row_ok_dec row : Decision (row_ok row).
Proof. unfold row_ok. apply _. Defined.

(** ** The arrow widget *)

(** The widget [_create_arrow_button(direction, x, y)] builds:
    [DraggableWidget()] without parent, moved to (x, y); [setFixedX] is
    never called on it. *)
Definition arrow_widget_created (x y : Z) : DraggableWidget.t :=
  DraggableWidget.init None x y.

(** Events between a press and its release. *)
Definition arrow_drag_phase (e : DraggableWidget.Event) : Prop :=
  match e with
  | DraggableWidget.Move _ _ _ | DraggableWidget.LongPressTimeout => True
  | _ => False
  end.

(** A move that comes no later than 100 ms after the press at [now0] or
    stays within 5 px of its height [gy0]. *)
Definition calm_move (now0 gy0 : Z) (e : DraggableWidget.Event) : Prop :=
  match e with
  | DraggableWidget.Move _ now gy => now - now0 <= 100 \/ Z.abs (gy - gy0) <= 5
  | _ => False
  end.

Module DW := DraggableWidget.

(** ** Theme icons *)

(** The icon map [_get_icon_map()] returns in a state. *)
Definition current_icon_map (env : Personalised.Env) (st : Personalised.State)
    : gmap string Z :=
  default (Personalised.icon_map_file env) (Personalised._icon_map_cache st).

(** The default icon, when [chr(DEFAULT_ICON_CODEPOINT)] raises nothing. *)
Definition default_icon (env : Personalised.Env) : Personalised.QIcon :=
  match Personalised.chr (Personalised.DEFAULT_ICON_CODEPOINT env) with
  | Some c => Personalised.FluentSystemIcons (Personalised.Chr c)
  | None => Personalised.QIcon_null
  end.

(** A name looked up in the icon map. *)
Definition plain_name (name : Personalised.IconName) : bool :=
  match name with
  | Personalised.NameStr _ => negb (Personalised.is_escape name)
  | Personalised.NameInt _ => false
  end.

Module PZ := Personalised.

(** * Properties *)

(** ** The button table *)

Lemma py_getitem_nat {A} (l : list A) (n : nat) :
  py_getitem l (Z.of_nat n) = l !! n.
Proof.
  unfold py_getitem.
  destruct (Z.leb_spec 0 (Z.of_nat n)); [by rewrite Nat2Z.id | lia].
Qed.

(** C8: the table has 16 rows and row 5 is roll_call followed by
    quick_draw. *)
Theorem C8_button_table_row_5 :
  length combos = 16%nat /\
  _map_button_control 5 = Some ["roll_call"; "quick_draw"].
Proof. split; reflexivity. Qed.

(** C10: [_map_button_control] never raises, never returns an empty list,
    and answers every index outside 0..15 with the row of index 0. *)
Theorem C10_map_button_control_total (idx : Z) :
  exists l, _map_button_control idx = Some l /\ l <> [] /\
            (idx < 0 \/ idx >= 16 -> l = ["roll_call"]).
Proof.
  unfold _map_button_control.
  change (Z.of_nat (length combos)) with 16.
  destruct (Z.ltb_spec idx 0) as [Hneg | Hpos]; simpl.
  { exists ["roll_call"]. repeat split; done. }
  destruct (Z.geb_spec idx 16) as [Hbig | Hsmall].
  { exists ["roll_call"]. repeat split; done. }
  assert (Hrow : exists l, py_getitem combos idx = Some l /\ l <> []).
  { rewrite <- (Z2Nat.id idx) by lia.
    rewrite py_getitem_nat.
    assert (Hn : (Z.to_nat idx < 16)%nat) by lia.
    revert Hn. generalize (Z.to_nat idx) as n. intros n Hn.
    do 16 (destruct n as [| n]; [ eexists; split; [reflexivity | done] | ]).
    lia. }
  destruct Hrow as (l & Hl & Hne).
  exists l. repeat split; [done | done | lia].
Qed.

(** ** Button layout *)

Section SplitRows.

Variable placement : Z.
Hypothesis placement_not_column : placement <> 1.
Hypothesis placement_not_row : placement <> 2.

Lemma add_button_top lay btn index total :
  index < (total + 1) / 2 ->
  _add_button placement lay btn index total =
    mkLayouts (container_items lay) (top_items lay ++ [btn]) (bottom_items lay).
Proof.
  intros Hlt. unfold _add_button.
  destruct (Z.eqb_spec placement 1); [done |].
  destruct (Z.eqb_spec placement 2); [done |].
  destruct (Z.ltb_spec index ((total + 1) / 2)); [done | lia].
Qed.

Lemma add_button_bottom lay btn index total :
  (total + 1) / 2 <= index ->
  _add_button placement lay btn index total =
    mkLayouts (container_items lay) (top_items lay) (bottom_items lay ++ [btn]).
Proof.
  intros Hge. unfold _add_button.
  destruct (Z.eqb_spec placement 1); [done |].
  destruct (Z.eqb_spec placement 2); [done |].
  destruct (Z.ltb_spec index ((total + 1) / 2)); [lia | done].
Qed.

(** The loop from index [i] on sends the buttons still below the split to
    the top row and all later ones to the bottom row. *)
Lemma add_buttons_from_rows total specs : forall (i : nat) lay,
  let k := Z.to_nat ((total + 1) / 2) in
  let lay' := add_buttons_from placement total (Z.of_nat i) specs lay in
  container_items lay' = container_items lay /\
  top_items lay' = top_items lay ++ take (k - i) specs /\
  bottom_items lay' = bottom_items lay ++ drop (k - i) specs.
Proof.
  induction specs as [| spec rest IH]; intros i lay k; simpl.
  - rewrite take_nil, drop_nil, !app_nil_r. done.
  - replace (Z.of_nat i + 1) with (Z.of_nat (S i)) by lia.
    specialize (IH (S i)). simpl in IH. fold k in IH.
    destruct (decide (i < k)%nat) as [Hlt | Hge].
    + rewrite add_button_top by (subst k; lia).
      destruct (IH (mkLayouts (container_items lay) (top_items lay ++ [spec])
                      (bottom_items lay))) as (Hc & Ht & Hb).
      simpl in *. rewrite Hc, Ht, Hb.
      replace (k - i)%nat with (S (k - S i)) by lia. simpl.
      rewrite <- app_assoc. done.
    + rewrite add_button_bottom by (subst k; lia).
      destruct (IH (mkLayouts (container_items lay) (top_items lay)
                      (bottom_items lay ++ [spec]))) as (Hc & Ht & Hb).
      simpl in *. rewrite Hc, Ht, Hb.
      replace (k - i)%nat with 0%nat by lia.
      replace (k - S i)%nat with 0%nat by lia. simpl.
      rewrite <- app_assoc. done.
Qed.

End SplitRows.

(** C9: with placement 0 the first ceil(total/2) buttons form the top row
    and the others the bottom row; of three buttons, the first two are on
    top and the third is below.  [k] is ceil(total/2): the one number with
    total <= 2k <= total + 1. *)
Theorem C9_split_rows_layout (specs : list string) :
  exists k : nat,
    (length specs <= 2 * k <= length specs + 1)%nat /\
    top_items (build_buttons 0 specs) = take k specs /\
    bottom_items (build_buttons 0 specs) = drop k specs /\
    container_items (build_buttons 0 specs) = [] /\
    (forall s0 s1 s2, specs = [s0; s1; s2] ->
       top_items (build_buttons 0 specs) = [s0; s1] /\
       bottom_items (build_buttons 0 specs) = [s2]).
Proof.
  set (total := Z.of_nat (length specs)).
  set (k := Z.to_nat ((total + 1) / 2)).
  assert (Hrows := add_buttons_from_rows 0 ltac:(lia) ltac:(lia) total specs
                     0%nat empty_layouts).
  simpl in Hrows. fold k in Hrows. rewrite Nat.sub_0_r in Hrows.
  destruct Hrows as (Hc & Ht & Hb).
  exists k. unfold build_buttons. fold total.
  split; [| split; [done | split; [done | split; [done |]]]].
  - assert (0 <= total) by lia.
    assert (2 * ((total + 1) / 2) <= total + 1)
      by (apply Z.mul_div_le; lia).
    assert (total + 1 < 2 * ((total + 1) / 2) + 2).
    { pose proof (Z.mod_pos_bound (total + 1) 2 ltac:(lia)).
      pose proof (Z.div_mod (total + 1) 2 ltac:(lia)). lia. }
    subst k total. lia.
  - intros s0 s1 s2 ->. split; reflexivity.
Qed.

(** ** Clamping *)

(** C3 fails as stated: a panel wider than the display cannot be inside it.
    On a display 100 px wide a 200 px panel is put at the left edge and
    sticks out on the right. *)
Lemma C3_clamp_wide_panel_sticks_out :
  let env := mkScreens (fun _ => None) (mkRect 0 0 100 100) in
  let fg := mkRect 0 0 200 50 in
  let '(cx, cy) := _clamp_to_screen env fg 10 10 in
  ~ rect_inside (mkRect cx cy (r_width fg) (r_height fg)) (screen_geo env fg).
Proof. vm_compute. intros (_ & H & _). by apply H. Qed.

(** C3, amended: when the panel is no larger than the display, the clamped
    panel rectangle lies inside the display. *)
Theorem C3_clamp_inside_display (env : Screens) (fg : QRect) (x y : Z) :
  r_width fg <= r_width (screen_geo env fg) ->
  r_height fg <= r_height (screen_geo env fg) ->
  rect_inside
    (mkRect (_clamp_to_screen env fg x y).1 (_clamp_to_screen env fg x y).2
       (r_width fg) (r_height fg))
    (screen_geo env fg).
Proof.
  intros Hw Hh. unfold rect_inside, _clamp_to_screen, r_left, r_right, r_top,
    r_bottom in *. simpl. lia.
Qed.

Lemma C3_clamp_inside_display_witness :
  let env := mkScreens (fun _ => None) (mkRect 0 0 1920 1080) in
  let fg := mkRect 0 0 200 100 in
  _clamp_to_screen env fg 5000 (-40) = (1720, 0) /\
  rect_inside (mkRect 1720 0 200 100) (mkRect 0 0 1920 1080).
Proof.
  intros env fg. split; [reflexivity |].
  change (rect_inside
            (mkRect (_clamp_to_screen env fg 5000 (-40)).1
               (_clamp_to_screen env fg 5000 (-40)).2 (r_width fg) (r_height fg))
            (screen_geo env fg)).
  apply (C3_clamp_inside_display env fg 5000 (-40)); vm_compute; discriminate.
Defined.

(** ** Frame lemmas: what the small operations leave alone *)

(** Case analysis on every test an unfolded operation makes. *)
Ltac split_tests :=
  repeat match goal with
         | |- context [if ?b then _ else _] => destruct b eqn:?
         | |- context [match ?o with Some _ => _ | None => _ end] =>
             destruct o eqn:?
         | |- context [match ?p with (_, _) => _ end] => destruct p
         end.

Ltac frame := intros; split_tests; reflexivity.

Lemma geometry_clear_indicator w : geometry (_clear_indicator w) = geometry w.
Proof. unfold _clear_indicator. frame. Qed.

Lemma geometry_show_indicator d w : geometry (_show_indicator d w) = geometry w.
Proof. unfold _show_indicator, _clear_indicator. frame. Qed.

Lemma geometry_schedule_retract w :
  geometry (outcome_window (_schedule_retract w)) = geometry w.
Proof. unfold _schedule_retract. frame. Qed.

Lemma geometry_cancel_retract w : geometry (_cancel_retract w) = geometry w.
Proof. unfold _cancel_retract. frame. Qed.

Lemma geometry_save_position w : geometry (_save_position w) = geometry w.
Proof. reflexivity. Qed.

Lemma last_stuck_schedule_retract w :
  _last_stuck (outcome_window (_schedule_retract w)) = _last_stuck w.
Proof. unfold _schedule_retract. frame. Qed.

Lemma last_stuck_clear_indicator w :
  _last_stuck (_clear_indicator w) = _last_stuck w.
Proof. unfold _clear_indicator. frame. Qed.

Lemma last_stuck_show_indicator d w :
  _last_stuck (_show_indicator d w) = _last_stuck w.
Proof. unfold _show_indicator, _clear_indicator. frame. Qed.

Lemma geometry_singleShot ms s w : geometry (singleShot ms s w) = geometry w.
Proof. reflexivity. Qed.

Lemma last_stuck_singleShot ms s w :
  _last_stuck (singleShot ms s w) = _last_stuck w.
Proof. reflexivity. Qed.

Create Rewrite HintDb frame.
#[local] Hint Rewrite geometry_clear_indicator geometry_show_indicator
  geometry_schedule_retract geometry_cancel_retract geometry_save_position
  geometry_singleShot last_stuck_singleShot
  last_stuck_schedule_retract last_stuck_clear_indicator
  last_stuck_show_indicator : frame.

(** ** Edge docking *)

(** Where [_stick_to_nearest_edge] leaves the window, and whether it docked. *)
Lemma stick_to_nearest_edge_result env w :
  _stick_to_edge w = true ->
  let fg := geometry w in
  let geo := screen_geo env fg in
  let w' := _stick_to_nearest_edge env w in
  (r_left fg - r_left geo <= 5 ->
     geometry w' = r_move fg (r_left geo) (r_y fg) /\ _last_stuck w' = true) /\
  (5 < r_left fg - r_left geo -> r_right geo - r_right fg <= 5 ->
     geometry w' = r_move fg (r_right geo - r_width fg + 1) (r_y fg) /\
     _last_stuck w' = true) /\
  (5 < r_left fg - r_left geo -> 5 < r_right geo - r_right fg ->
     geometry w' = fg /\ _last_stuck w' = false).
Proof.
  intros Hstick fg geo w'. subst w'. unfold _stick_to_nearest_edge.
  rewrite Hstick. simpl. fold fg geo. unfold _edge_threshold.
  destruct (Z.leb_spec (r_left fg - r_left geo) 5) as [Hl | Hl];
    [| destruct (Z.leb_spec (r_right geo - r_right fg) 5) as [Hr | Hr]].
  - repeat split; try lia; intros;
      destruct (floating_window_stick_to_edge _); simpl;
      autorewrite with frame; reflexivity.
  - repeat split; try lia; intros;
      destruct (floating_window_stick_to_edge _); simpl;
      autorewrite with frame; reflexivity.
  - repeat split; try lia; intros; reflexivity.
Qed.

(** [set_dragging] goes through the dock. *)
Lemma stick_to_nearest_edge_set_dragging env v w :
  _stick_to_nearest_edge env (set_dragging v w)
  = set_dragging v (_stick_to_nearest_edge env w).
Proof.
  unfold _stick_to_nearest_edge, _show_indicator, _clear_indicator.
  simpl. frame.
Qed.

(** Whether or not the retract timer could be started, the release leaves
    the panel where the dock put it. *)
Lemma geometry_drag_release env w :
  geometry (outcome_window (drag_release env w))
  = geometry (_stick_to_nearest_edge env w).
Proof.
  unfold drag_release. rewrite stick_to_nearest_edge_set_dragging.
  generalize (_stick_to_nearest_edge env w). intros x.
  transitivity (geometry (set_dragging false x)); [| reflexivity].
  set (w1 := set_dragging false x).
  destruct (_last_stuck w1).
  - pose proof (geometry_schedule_retract w1) as H.
    destruct (_schedule_retract w1) eqn:E; exact H.
  - exact (geometry_clear_indicator w1).
Qed.

Lemma last_stuck_drag_release env w :
  _last_stuck (outcome_window (drag_release env w))
  = _last_stuck (_stick_to_nearest_edge env w).
Proof.
  unfold drag_release. rewrite stick_to_nearest_edge_set_dragging.
  generalize (_stick_to_nearest_edge env w). intros x.
  transitivity (_last_stuck (set_dragging false x)); [| reflexivity].
  set (w1 := set_dragging false x).
  destruct (_last_stuck w1) eqn:E.
  - pose proof (last_stuck_schedule_retract w1) as H. rewrite E in H.
    destruct (_schedule_retract w1) eqn:E1; exact H.
  - rewrite <- E. exact (last_stuck_clear_indicator w1).
Qed.



(** ** Drag detector *)

Lemma press_gives_pressed_at origin w :
  _dragging w = false -> pressed_at origin (mousePressEvent LeftButton origin w).
Proof.
  intros Hidle. unfold mousePressEvent, pressed_at. simpl.
  destruct (_draggable w) eqn:Hd; simpl; [done | by rewrite Hd].
Qed.

Lemma small_move_changes_nothing env origin e w :
  pressed_at origin w -> small_move origin e -> step env w e = w.
Proof.
  intros [Hidle Hpos] Hsmall.
  destruct e; simpl in Hsmall; try done; destruct Hsmall as [Hx Hy]; simpl;
    unfold mouseMoveEvent, filterMove, drag_move, _begin_drag;
    destruct (_draggable w) eqn:Hd; simpl; try done;
    destruct left_down; simpl; try done;
    rewrite Hidle, (Hpos eq_refl); simpl;
    destruct (Z.geb_spec (Z.abs (pt_x gpos - pt_x origin)) 3); try lia;
    destruct (Z.geb_spec (Z.abs (pt_y gpos - pt_y origin)) 3); try lia;
    simpl; by rewrite Hidle.
Qed.

Lemma small_moves_change_nothing env origin moves : forall w,
  pressed_at origin w -> Forall (small_move origin) moves ->
  run env w moves = w /\ Forall (fun s => s = w) (states env w moves).
Proof.
  induction moves as [| e moves IH]; intros w Hw Hall; simpl.
  - split; [done | constructor].
  - inversion Hall as [| ? ? He Hrest]; subst.
    rewrite (small_move_changes_nothing env origin e w Hw He).
    destruct (IH w Hw Hrest) as [Hrun Hst].
    split; [exact Hrun | constructor; [done | exact Hst]].
Qed.

Lemma states_app env evs1 : forall w evs2,
  states env w (evs1 ++ evs2) =
    states env w evs1 ++ states env (run env w evs1) evs2.
Proof.
  induction evs1 as [| e evs1 IH]; intros w evs2; simpl; [done |].
  by rewrite IH.
Qed.

Lemma release_without_drag env w :
  _dragging w = false -> _dragging (mouseReleaseEvent env LeftButton w) = false.
Proof.
  intros Hidle. unfold mouseReleaseEvent. cbn [is_left].
  set (w0 := set_drag_timer _ w).
  change (_dragging w0) with (_dragging w). rewrite Hidle, andb_false_r.
  destruct (floating_window_stick_to_edge w0); exact Hidle.
Qed.




(** ** Retract timer *)

(** Arming: with stick-to-edge on and a positive delay whose milliseconds
    fit a C [int], the timer is (re)started for that many seconds and keeps
    its single-shot flag. *)
Lemma schedule_retract_arms w :
  _stick_to_edge w = true -> 0 < _retract_seconds w <= 2147483 ->
  _schedule_retract w
    = Returned
        (set_retract_timer
           (mkTimer true (_retract_seconds w * 1000)
              (t_singleShot (_retract_timer w))) w).
Proof.
  intros Hs Hr. unfold _schedule_retract, fits_int. rewrite Hs. simpl.
  destruct (Z.eqb_spec (_retract_seconds w) 0); [lia |].
  destruct (Z.gtb_spec (_retract_seconds w) 0); [| lia]. simpl.
  destruct (Z.leb_spec (-2147483648) (_retract_seconds w * 1000)); [| lia].
  destruct (Z.leb_spec (_retract_seconds w * 1000) 2147483647); [| lia].
  simpl. by destruct w.
Qed.

(** Beyond that the start raises and leaves the timer stopped. *)
Lemma schedule_retract_raises w :
  _stick_to_edge w = true -> 2147483 < _retract_seconds w ->
  _schedule_retract w
    = Raised (set_retract_timer (timer_stop (_retract_timer w)) w).
Proof.
  intros Hs Hr. unfold _schedule_retract, fits_int. rewrite Hs. simpl.
  destruct (Z.eqb_spec (_retract_seconds w) 0); [lia |].
  destruct (Z.gtb_spec (_retract_seconds w) 0); [| lia]. simpl.
  destruct (Z.leb_spec (_retract_seconds w * 1000) 2147483647); [lia |].
  by rewrite andb_false_r.
Qed.

(** Canceling: afterwards the timer is stopped, so no timeout is delivered. *)
Lemma cancel_retract_stops env w :
  t_active (_retract_timer (_cancel_retract w)) = false /\
  step env (_cancel_retract w) RetractTimerTimeout = _cancel_retract w.
Proof.
  assert (H : t_active (_retract_timer (_cancel_retract w)) = false).
  { unfold _cancel_retract. destruct (t_active (_retract_timer w)) eqn:E; done. }
  split; [exact H | simpl; by rewrite H].
Qed.

(** Expiry: no slot is connected to the retract timer, so its timeout
    changes the timer and nothing else. *)
Lemma retract_timeout_only_stops_timer env w :
  step env w RetractTimerTimeout = w \/
  step env w RetractTimerTimeout
    = set_retract_timer (timer_timed_out (_retract_timer w)) w.
Proof. simpl. destruct (t_active (_retract_timer w)); [by right | by left]. Qed.

(** C1, at the failing input: stick-to-edge on, a retract delay of 5 s, the
    auto-hide switch turned off.  A long-press drag released 3 px from the
    left edge docks the panel and arms the single-shot timer for 5000 ms;
    when the timer expires uncanceled the panel is still expanded, at the
    docked position, with no collapsed indicator and nothing pending. *)
Theorem C1_retract_timer_expiry_leaves_panel_expanded :
  let env := screen_1080p in
  let docked :=
    run env (init env store_docked_legacy 200 100)
      [SettingChanged "floating_window_management" "flash_window_side_switch" 0;
       MousePress LeftButton (mkPoint 50 350);
       DragTimerTimeout;
       MouseRelease LeftButton] in
  let expired := step env docked RetractTimerTimeout in
  _stick_to_edge docked = true /\
  geometry docked = mkRect 0 300 200 100 /\
  _retract_timer docked = mkTimer true 5000 true /\
  _retract_timer expired = mkTimer false 5000 true /\
  _retracted expired = false /\
  geometry expired = mkRect 0 300 200 100 /\
  storage_window expired = None /\ arrow_widget expired = None /\
  animation expired = None /\ single_shots expired = [].
Proof. vm_compute. repeat split; reflexivity. Qed.

(** ** Collapse and expand *)

Lemma stop_running_animation_eq w :
  stop_running_animation w = set_animation (stopped (animation w)) w.
Proof.
  destruct w as [? ? ? ? ? ? ? ? ? ? ? ? ? ? ? ? ? [[[] ? ?] |] ? ? ? ? ?];
    reflexivity.
Qed.

Lemma clear_indicator_eq w : _clear_indicator w = set_indicator None w.
Proof.
  destruct w as [? ? ? ? [] ? ? ? ? ? ? ? ? ? ? ? ? ? ? ? ? ? ?]; reflexivity.
Qed.

Lemma check_edge_proximity_collapses env w :
  floating_window_stick_to_edge w = true -> at_edge env w ->
  _check_edge_proximity env w =
    set_animation (Some (collapse_animation env w))
      (set_original_position
         (Some (default (win_pos w) (_original_position w)))
         (set_indicator None (set_animation (stopped (animation w)) w))).
Proof.
  intros Hflag Hedge. unfold _check_edge_proximity, collapse_animation.
  rewrite stop_running_animation_eq, clear_indicator_eq.
  destruct w; simpl in *. subst.
  unfold at_edge, win_x, win_width in *. simpl in *.
  destruct (Z.leb_spec (r_x geometry0) 5).
  - destruct _original_position0; reflexivity.
  - destruct (Z.geb_spec (r_x geometry0 + r_width geometry0)
                (r_width (primaryScreen env) - 5)); [| lia].
    destruct _original_position0; reflexivity.
Qed.

(** Delivery of [finished] to a running panel animation. *)
Lemma animation_finished_eq env w a :
  animation w = Some a -> a_running a = true ->
  step env w AnimationFinished =
    run_callbacks (a_finished a)
      (set_animation (Some (animation_stop a)) (set_geometry (a_end a) w)).
Proof. intros Ha Hrun. simpl. by rewrite Ha, Hrun. Qed.

Lemma on_animation_finished_storage d ix wy wh w :
  _stick_indicator_style w = 0 ->
  on_animation_finished d ix wy wh w =
    set_retracted true
      (set_storage_window
         (Some (mkStorage (mkRect ix (wy + wh / 2 - 30) 30 30))) w).
Proof.
  intros Hstyle. unfold on_animation_finished. rewrite Hstyle. simpl.
  unfold _create_storage_window, _delete_storage_window.
  destruct w; simpl in *. by destruct storage_window0.
Qed.

Lemma on_animation_finished_arrow d ix wy wh w :
  _stick_indicator_style w <> 0 ->
  on_animation_finished d ix wy wh w =
    set_retracted true
      (set_arrow_widget (Some (mkArrow (mkRect ix (wy + wh / 2 - 15) 30 30) d)) w).
Proof.
  intros Hstyle. unfold on_animation_finished.
  destruct (Z.eqb_spec (_stick_indicator_style w) 0); [done |].
  unfold _create_arrow_button, _delete_arrow_button.
  destruct w; simpl in *. by destruct arrow_widget0.
Qed.

(** What lasts of [_expand_window]: a running panel animation is stopped. *)
Lemma expand_window_eq env w :
  _expand_window env w =
    match storage_window w with
    | Some _ => set_animation (stopped (animation w)) w
    | None => w
    end.
Proof.
  unfold _expand_window. destruct (storage_window w); [| reflexivity].
  apply stop_running_animation_eq.
Qed.

Lemma run_cons env w e evs : run env w (e :: evs) = run env (step env w e) evs.
Proof. reflexivity. Qed.

Lemma run_nil env w : run env w [] = w.
Proof. reflexivity. Qed.

Lemma storage_clicked_eq env w : step env w StorageClicked = _expand_window env w.
Proof. reflexivity. Qed.

Lemma storage_window_deleted w : storage_window (_delete_storage_window w) = None.
Proof. unfold _delete_storage_window. by destruct (storage_window w) eqn:E. Qed.

Lemma geometry_delete_storage_window w :
  geometry (_delete_storage_window w) = geometry w.
Proof. unfold _delete_storage_window. frame. Qed.

(** C2, at the failing inputs: a panel at (3, 300) on a 1920 x 1080 screen,
    collapsed by the auto-hide timer; the collapse saves (3, 300) as the
    original position and leaves the panel at (-190, 300).
    With the storage window, the click runs [_expand_window], whose exit
    animation, a local variable, is destroyed when the function returns:
    [on_storage_animation_finished], which would send the panel back to the
    saved position, never runs.  The click changes nothing at all: the
    panel is still collapsed at (-190, 300) behind its storage window, no
    animation runs, no timer runs and no call is pending.
    With the arrow button, the click (on the arrow where the collapse put
    it) sends the panel to the dock position (0, 300), not to the saved
    (3, 300). *)
Theorem C2_expand_does_not_restore_pre_collapse_position :
  let env := screen_1080p in
  (let w := init env store_docked_legacy 200 100 in
   let c := run env w [Leave; AutoHideTimerTimeout; AnimationFinished] in
   let e := step env c StorageClicked in
   win_pos w = mkPoint 3 300 /\
   _original_position c = Some (mkPoint 3 300) /\
   e = c /\
   win_pos e = mkPoint (-190) 300 /\ _retracted e = true /\
   storage_window e = Some (mkStorage (mkRect 0 320 30 30)) /\
   (a_running <$> animation e) = Some false /\
   (t_active <$> _auto_hide_timer e) = Some false /\
   t_active (_retract_timer e) = false /\ t_active (_drag_timer e) = false /\
   single_shots e = []) /\
  (let w := init env store_docked_arrow 200 100 in
   let c := run env w [Leave; AutoHideTimerTimeout; AnimationFinished] in
   let e := run env c [ArrowClicked; AnimationFinished] in
   win_pos w = mkPoint 3 300 /\
   _original_position c = Some (mkPoint 3 300) /\
   win_pos c = mkPoint (-190) 300 /\
   win_pos e = mkPoint 0 300).
Proof. vm_compute. repeat split; reflexivity. Qed.

(** ** Position persistence *)

Section PersistedFrame.

Variable env : Screens.

Ltac keeps := intros; unfold persisted; split_tests; reflexivity.

Lemma persisted_stop_running_animation w :
  persisted (stop_running_animation w) = persisted w.
Proof. unfold stop_running_animation. keeps. Qed.

Lemma persisted_clear_indicator w :
  persisted (_clear_indicator w) = persisted w.
Proof. unfold _clear_indicator. keeps. Qed.

Lemma persisted_show_indicator d w :
  persisted (_show_indicator d w) = persisted w.
Proof. unfold _show_indicator, _clear_indicator. keeps. Qed.

Lemma persisted_schedule_retract w :
  persisted (outcome_window (_schedule_retract w)) = persisted w.
Proof. unfold _schedule_retract. keeps. Qed.

Lemma persisted_stick_to_nearest_edge w :
  persisted (_stick_to_nearest_edge env w) = persisted w.
Proof.
  unfold _stick_to_nearest_edge, _show_indicator, _clear_indicator. simpl.
  keeps.
Qed.

Lemma persisted_retract_into_edge w :
  persisted (_retract_into_edge env w) = persisted w.
Proof.
  unfold _retract_into_edge, _show_indicator, _clear_indicator. simpl. keeps.
Qed.

Lemma persisted_expand_from_edge w :
  persisted (_expand_from_edge env w) = persisted w.
Proof. unfold _expand_from_edge, _clear_indicator. simpl. keeps. Qed.

Lemma persisted_mousePressEvent b p w :
  persisted (mousePressEvent b p w) = persisted w.
Proof. unfold mousePressEvent. keeps. Qed.

Lemma persisted_drag_move p w : persisted (drag_move p w) = persisted w.
Proof. unfold drag_move, _begin_drag, _cancel_retract. simpl. keeps. Qed.

Lemma persisted_mouseMoveEvent l p w :
  persisted (mouseMoveEvent l p w) = persisted w.
Proof. unfold mouseMoveEvent. destruct (_ && _); [apply persisted_drag_move | done]. Qed.

Lemma persisted_filterPress b p w : persisted (filterPress b p w) = persisted w.
Proof. unfold filterPress. keeps. Qed.

Lemma persisted_filterMove l p w : persisted (filterMove l p w) = persisted w.
Proof.
  unfold filterMove. destruct (negb _); [done |].
  destruct l; [apply persisted_drag_move | done].
Qed.

Lemma persisted_new_auto_hide_timer w :
  persisted (new_auto_hide_timer w) = persisted w.
Proof. unfold new_auto_hide_timer. keeps. Qed.

Lemma persisted_enterEvent w : persisted (enterEvent w) = persisted w.
Proof. unfold enterEvent. keeps. Qed.

Lemma persisted_leaveEvent w : persisted (leaveEvent w) = persisted w.
Proof.
  unfold leaveEvent.
  set (o := if _retracted w then _ else _).
  assert (Ho : persisted (outcome_window o) = persisted w).
  { unfold o. destruct (_retracted w); [apply persisted_schedule_retract | done]. }
  destruct o as [w1 | w1]; simpl in Ho; [| exact Ho].
  rewrite <- Ho. unfold new_auto_hide_timer. simpl. keeps.
Qed.

Lemma persisted_delete_storage_window w :
  persisted (_delete_storage_window w) = persisted w.
Proof. unfold _delete_storage_window. keeps. Qed.

Lemma persisted_on_animation_finished d x wy wh w :
  persisted (on_animation_finished d x wy wh w) = persisted w.
Proof.
  unfold on_animation_finished, _create_storage_window, _create_arrow_button,
    _delete_storage_window, _delete_arrow_button. simpl. keeps.
Qed.

Lemma persisted_expand_window w : persisted (_expand_window env w) = persisted w.
Proof. unfold _expand_window, stop_running_animation. keeps. Qed.

Lemma persisted_on_storage_animation_finished scr ww wh w :
  persisted (on_storage_animation_finished scr ww wh w) = persisted w.
Proof.
  unfold on_storage_animation_finished.
  rewrite <- (persisted_delete_storage_window w).
  generalize (_delete_storage_window w). keeps.
Qed.

Lemma persisted_on_main_animation_finished w :
  persisted (on_main_animation_finished w) = persisted w.
Proof. unfold on_main_animation_finished, new_auto_hide_timer. simpl. keeps. Qed.

Lemma persisted_show_hidden_window d w :
  persisted (_show_hidden_window env d w) = persisted w.
Proof.
  unfold _show_hidden_window.
  rewrite <- (persisted_stop_running_animation w).
  generalize (stop_running_animation w). intros w0.
  unfold _delete_arrow_button. simpl. keeps.
Qed.

Lemma persisted_on_setting_changed f s v w :
  persisted (_on_setting_changed env f s v w) = persisted w.
Proof.
  unfold _on_setting_changed.
  repeat match goal with
         | |- context [if String.eqb ?a ?b then _ else _] =>
             destruct (String.eqb a b)
         end; try reflexivity.
  - destruct (py_bool v); [reflexivity |].
    set (w0 := set_floating_window_stick_to_edge false w).
    change (persisted w) with (persisted w0).
    rewrite <- (persisted_delete_storage_window w0).
    destruct (_retracted _); [apply persisted_expand_from_edge | done].
Qed.

Lemma persisted_run_callback c w : persisted (run_callback c w) = persisted w.
Proof.
  destruct c; simpl;
    auto using persisted_on_animation_finished,
      persisted_on_storage_animation_finished,
      persisted_on_main_animation_finished.
Qed.

Lemma persisted_run_callbacks cbs : forall w,
  persisted (run_callbacks cbs w) = persisted w.
Proof.
  induction cbs as [| c cbs IH]; intros w; [done |].
  unfold run_callbacks in *. simpl. by rewrite IH, persisted_run_callback.
Qed.

Lemma persisted_check_edge_proximity w :
  settled_check env w = false ->
  persisted (_check_edge_proximity env w) = persisted w.
Proof.
  unfold settled_check, _check_edge_proximity.
  rewrite stop_running_animation_eq, clear_indicator_eq.
  unfold win_x, win_width, win_pos. simpl.
  destruct (floating_window_stick_to_edge w); simpl; [| done].
  destruct (r_x (geometry w) <=? 5); simpl.
  { intros _. by destruct (_original_position w). }
  destruct (_ >=? _); simpl.
  { intros _. by destruct (_original_position w). }
  intros ->. simpl. split_tests; reflexivity.
Qed.

Lemma persisted_auto_hide_window w :
  settled_check env w = false ->
  persisted (_auto_hide_window env w) = persisted w.
Proof.
  intros Hs. unfold _auto_hide_window.
  destruct (floating_window_stick_to_edge w) eqn:Hflag; [| done].
  set (w0 := match _auto_hide_timer w with Some _ => _ | None => _ end).
  assert (Hw0 : settled_check env w0 = settled_check env w /\
             persisted w0 = persisted w).
  { unfold w0. split_tests; split; reflexivity. }
  destruct Hw0 as [Hs0 <-]. apply persisted_check_edge_proximity.
  by rewrite Hs0.
Qed.

End PersistedFrame.

Lemma persisted_step env w e :
  user_settle env w e = false -> persisted (step env w e) = persisted w.
Proof.
  destruct e; simpl; intros Hs.
  - apply persisted_mousePressEvent.
  - apply persisted_mouseMoveEvent.
  - unfold mouseReleaseEvent. destruct (is_left button); [| done].
    simpl in Hs. cbn [_draggable _dragging set_drag_timer]. rewrite Hs.
    by destruct (floating_window_stick_to_edge _).
  - apply persisted_filterPress.
  - apply persisted_filterMove.
  - unfold filterRelease. destruct (_draggable w); [| done]. simpl in *.
    destruct (is_left button); [| done]. simpl in *. by rewrite Hs.
  - apply persisted_enterEvent.
  - apply persisted_leaveEvent.
  - by destruct (t_active (_drag_timer w)).
  - by destruct (t_active (_retract_timer w)).
  - destruct (_auto_hide_timer w) as [t |]; [| done].
    destruct (t_active t); [| done]. simpl in Hs.
    unfold run_slots, _auto_hide_timer_slots. simpl.
    by rewrite persisted_auto_hide_window.
  - destruct (single_shots w !! i) as [[ms s] |]; [| done].
    destruct s; simpl; [done | |].
    + by rewrite persisted_auto_hide_window.
    + by rewrite persisted_check_edge_proximity.
  - destruct (animation w) as [a |]; [| done].
    destruct (a_running a); [| done]. by rewrite persisted_run_callbacks.
  - apply persisted_expand_window.
  - destruct (arrow_widget w); [apply persisted_show_hidden_window | done].
  - apply persisted_on_setting_changed.
Qed.

(** With a retract delay whose milliseconds fit the timer's [int], nothing
    raises when a drag ends: [_save_position] runs. *)
Lemma schedule_retract_returns w :
  _retract_seconds w <= 2147483 ->
  exists w1, _schedule_retract w = Returned w1.
Proof.
  intros Hfit. unfold _schedule_retract, fits_int.
  destruct (negb (_stick_to_edge w)); [eauto |].
  destruct (Z.eqb_spec (_retract_seconds w) 0); simpl; [eauto |].
  destruct (Z.gtb_spec (_retract_seconds w) 0); simpl; [| eauto].
  destruct (Z.leb_spec (-2147483648) (_retract_seconds w * 1000)); [| lia].
  destruct (Z.leb_spec (_retract_seconds w * 1000) 2147483647); [| lia].
  simpl. eauto.
Qed.

Lemma drag_release_saves env w :
  _retract_seconds w <= 2147483 ->
  exists w1, drag_release env w = Returned (_save_position w1) /\
             emitted w1 = emitted w.
Proof.
  intros Hfit. unfold drag_release.
  set (w0 := _stick_to_nearest_edge env (set_dragging false w)).
  assert (H0 : persisted w0 = persisted w /\ _retract_seconds w0 = _retract_seconds w).
  { unfold w0. split.
    - by rewrite persisted_stick_to_nearest_edge.
    - unfold _stick_to_nearest_edge, _show_indicator, _clear_indicator.
      simpl. frame. }
  destruct H0 as [Hp Hr].
  destruct (_last_stuck w0).
  - destruct (schedule_retract_returns w0) as [w1 E]; [lia |].
    pose proof (persisted_schedule_retract w0) as Hs.
    rewrite E in *. simpl in Hs. exists w1. split; [done |].
    apply (f_equal snd) in Hs, Hp. simpl in *. congruence.
  - exists (_clear_indicator w0). split; [done |].
    pose proof (persisted_clear_indicator w0) as Hs.
    apply (f_equal snd) in Hs, Hp. simpl in *. congruence.
Qed.

Lemma at_edge_not_settled env w : at_edge env w -> settled_check env w = false.
Proof.
  unfold at_edge, settled_check. intros [Hl | Hr].
  - destruct (Z.leb_spec (win_x w) 5); [| lia]. simpl. by rewrite andb_false_r.
  - destruct (Z.geb_spec (win_x w + win_width w)
                (r_width (primaryScreen env) - 5)); [| lia].
    simpl. by rewrite !andb_false_r.
Qed.

(** C6: an event changes the stored position or emits [positionChanged]
    only if it is a user settle (the release ending a drag, or a proximity
    check in its settled branch with the panel not retracted); the collapse
    branch of the proximity check, the animation ends and the clicks that
    expand from an indicator leave the store, the stored coordinates and the
    emitted signals as they were; and the release that ends a drag does
    write the panel's position and emits it, as long as the retract delay is
    at most 2147483 s, so that its milliseconds fit the timer's [int] and
    [_schedule_retract] cannot raise before [_save_position]. *)
Theorem C6_position_written_only_on_settle (env : Screens) (w : Window)
    (e : Event) :
  (persisted (step env w e) <> persisted w -> user_settle env w e = true) /\
  (at_edge env w ->
     persisted (_check_edge_proximity env w) = persisted w /\
     float_position (_check_edge_proximity env w) = float_position w) /\
  (collapse_expand_event e = true ->
     persisted (step env w e) = persisted w /\
     float_position (step env w e) = float_position w) /\
  (_draggable w = true -> _dragging w = true ->
   _retract_seconds w <= 2147483 ->
     let w' := step env w (MouseRelease LeftButton) in
     float_position w' = (Some (win_x w'), Some (win_y w')) /\
     emitted w' = emitted w ++ [positionChanged (win_x w') (win_y w')]).
Proof.
  assert (Hfp : forall w1 w2, persisted w1 = persisted w2 ->
                              float_position w1 = float_position w2).
  { unfold persisted, float_position. intros w1 w2 [= -> _]. done. }
  split; [| split; [| split]].
  - intros Hne. destruct (user_settle env w e) eqn:Hs; [done |].
    destruct Hne. by apply persisted_step.
  - intros Hedge.
    assert (Hp := persisted_check_edge_proximity env w
                    (at_edge_not_settled env w Hedge)).
    split; [exact Hp | by apply Hfp].
  - intros Hev.
    assert (Hp : persisted (step env w e) = persisted w).
    { apply persisted_step. by destruct e. }
    split; [exact Hp | by apply Hfp].
  - intros Hd Hg Hfit. simpl. unfold mouseReleaseEvent. cbn [is_left].
    cbn [_draggable _dragging set_drag_timer]. rewrite Hd, Hg. cbn [andb].
    set (w0 := set_drag_timer _ w).
    destruct (drag_release_saves env w0 Hfit) as (w1 & -> & Hw1).
    change (emitted w0) with (emitted w) in Hw1.
    destruct (floating_window_stick_to_edge (_save_position w1));
      unfold float_position, win_x, win_y; simpl; rewrite Hw1;
      (split; [| reflexivity]); f_equal.
    all: try apply lookup_insert_eq.
    all: rewrite lookup_insert_ne by done; apply lookup_insert_eq.
Qed.

Lemma C6_position_written_only_on_settle_witness :
  let env := screen_1080p in
  let w := set_dragging true (window_at store_stick_5s 3 300) in
  user_settle env w (MouseRelease LeftButton) = true /\
  float_position (_check_edge_proximity env w) = float_position w /\
  float_position (step env w (MouseRelease LeftButton)) = (Some 0, Some 300) /\
  float_position (step env (_check_edge_proximity env w) AnimationFinished)
    = float_position (_check_edge_proximity env w).
Proof.
  intros env w.
  destruct (C6_position_written_only_on_settle env w (MouseRelease LeftButton))
    as (Honly & Hcollapse & _ & Hrelease).
  split; [| split; [| split]].
  - apply Honly. intros H. apply (f_equal snd) in H. vm_compute in H.
    discriminate H.
  - apply Hcollapse. left. vm_compute. discriminate.
  - destruct Hrelease as [Hfp _];
      [reflexivity | reflexivity | vm_compute; discriminate |].
    rewrite Hfp. reflexivity.
  - destruct (C6_position_written_only_on_settle env
                (_check_edge_proximity env w) AnimationFinished)
      as (_ & _ & Hanim & _).
    apply Hanim. reflexivity.
Defined.

(** ** The legacy indicator and the auto-hide indicators *)

Section LegacyIndicator.

Variable env : Screens.

Ltac keeps := intros; split_tests; reflexivity.

(** With the auto-hide flag on, docking and retracting show no legacy
    indicator. *)
Lemma indicator_stick_to_nearest_edge w :
  floating_window_stick_to_edge w = true ->
  _indicator (_stick_to_nearest_edge env w) = _indicator w.
Proof.
  intros Hflag. unfold _stick_to_nearest_edge. simpl. rewrite Hflag. simpl.
  keeps.
Qed.

Lemma indicator_retract_into_edge w :
  floating_window_stick_to_edge w = true ->
  _indicator (_retract_into_edge env w) = _indicator w.
Proof.
  intros Hflag. unfold _retract_into_edge. simpl. rewrite Hflag. simpl. keeps.
Qed.

(** The proximity check clears the legacy indicator, whatever the flag. *)
Lemma indicator_check_edge_proximity w :
  _indicator (_check_edge_proximity env w) = None.
Proof.
  unfold _check_edge_proximity.
  rewrite stop_running_animation_eq, clear_indicator_eq. simpl. keeps.
Qed.

Lemma indicator_run_callback c w :
  _indicator (run_callback c w) = _indicator w.
Proof.
  destruct c; simpl.
  - unfold on_animation_finished, _create_storage_window,
      _create_arrow_button, _delete_storage_window, _delete_arrow_button.
    simpl. keeps.
  - unfold on_storage_animation_finished, _delete_storage_window. keeps.
  - unfold on_main_animation_finished, new_auto_hide_timer. simpl. keeps.
Qed.

Lemma indicator_run_callbacks cbs : forall w,
  _indicator (run_callbacks cbs w) = _indicator w.
Proof.
  induction cbs as [| c cbs IH]; intros w; [done |].
  unfold run_callbacks in *. simpl. by rewrite IH, indicator_run_callback.
Qed.

Lemma indicator_auto_hide_window w :
  _indicator w = None -> _indicator (_auto_hide_window env w) = None.
Proof.
  intros Hi. unfold _auto_hide_window.
  destruct (floating_window_stick_to_edge w); [| done].
  apply indicator_check_edge_proximity.
Qed.

Lemma indicator_schedule_retract w :
  _indicator (outcome_window (_schedule_retract w)) = _indicator w.
Proof. unfold _schedule_retract. keeps. Qed.

Lemma indicator_drag_release w :
  floating_window_stick_to_edge w = true -> _indicator w = None ->
  _indicator (outcome_window (drag_release env w)) = None.
Proof.
  intros Hflag Hi. unfold drag_release.
  set (w1 := _stick_to_nearest_edge env (set_dragging false w)).
  assert (H1 : _indicator w1 = None)
    by (unfold w1; by rewrite indicator_stick_to_nearest_edge).
  destruct (_last_stuck w1).
  - pose proof (indicator_schedule_retract w1) as H. rewrite H1 in H.
    destruct (_schedule_retract w1); exact H.
  - simpl. unfold _clear_indicator. by rewrite H1.
Qed.

(** So while the flag is on, no event brings the legacy indicator back. *)
Lemma indicator_stays_absent w e :
  floating_window_stick_to_edge w = true -> _indicator w = None ->
  _indicator (step env w e) = None.
Proof.
  intros Hflag Hi. destruct e; simpl.
  - unfold mousePressEvent. split_tests; exact Hi.
  - unfold mouseMoveEvent, drag_move, _begin_drag, _cancel_retract. simpl.
    split_tests; exact Hi.
  - unfold mouseReleaseEvent. destruct (is_left button); [| done].
    set (w0 := set_drag_timer _ w).
    assert (H0 : _indicator
                   (outcome_window
                      (if _draggable w0 && _dragging w0
                       then drag_release env w0 else Returned w0)) = None).
    { destruct (_ && _); [by apply indicator_drag_release | done]. }
    set (o := if _ && _ then _ else _) in *.
    destruct o as [w1 | w1]; simpl in H0; [| exact H0].
    destruct (floating_window_stick_to_edge w1); exact H0.
  - unfold filterPress. split_tests; exact Hi.
  - unfold filterMove, drag_move, _begin_drag, _cancel_retract. simpl.
    split_tests; exact Hi.
  - unfold filterRelease. destruct (negb _); [done |].
    destruct (is_left button); [| done].
    set (w0 := set_drag_timer _ w). destruct (_dragging w0); [| done].
    assert (H0 : _indicator (outcome_window (drag_release env w0)) = None)
      by (by apply indicator_drag_release).
    destruct (drag_release env w0) as [w1 | w1]; simpl in H0; [| exact H0].
    destruct (floating_window_stick_to_edge w1); exact H0.
  - unfold enterEvent. split_tests; exact Hi.
  - unfold leaveEvent.
    set (o := if _retracted w then _ else _).
    assert (Ho : _indicator (outcome_window o) = None).
    { unfold o. destruct (_retracted w); [| done].
      by rewrite indicator_schedule_retract. }
    destruct o as [w1 | w1]; simpl in Ho; [| exact Ho].
    unfold new_auto_hide_timer. simpl. split_tests; exact Ho.
  - by destruct (t_active _).
  - by destruct (t_active _).
  - destruct (_auto_hide_timer w) as [t |]; [| done].
    destruct (t_active t); [| done].
    by apply indicator_auto_hide_window.
  - destruct (single_shots w !! i) as [[ms s] |]; [| done].
    destruct s; simpl; [done | by apply indicator_auto_hide_window |].
    apply indicator_check_edge_proximity.
  - destruct (animation w) as [a |]; [| done].
    destruct (a_running a); [| done]. by rewrite indicator_run_callbacks.
  - unfold _expand_window. rewrite stop_running_animation_eq.
    by destruct (storage_window w).
  - destruct (arrow_widget w); [| done].
    unfold _show_hidden_window. rewrite stop_running_animation_eq.
    unfold _delete_arrow_button. simpl. split_tests; exact Hi.
  - unfold _on_setting_changed.
    repeat match goal with
           | |- context [if String.eqb ?a ?b then _ else _] =>
               destruct (String.eqb a b)
           end; try exact Hi.
    destruct (py_bool value); [exact Hi |].
    set (w0 := _delete_storage_window _).
    assert (H0 : _indicator w0 = None).
    { unfold w0, _delete_storage_window. simpl. split_tests; exact Hi. }
    destruct (_retracted w0); [| exact H0].
    unfold _expand_from_edge. rewrite clear_indicator_eq. reflexivity.
Qed.

End LegacyIndicator.

(** When the auto-hide switch is turned off with a storage window up, the
    window is deleted. *)
Lemma switch_off_deletes_storage_window env w :
  storage_window
    (step env w (SettingChanged "floating_window_management"
                   "flash_window_side_switch" 0)) = None.
Proof.
  simpl. unfold _on_setting_changed. cbn [String.eqb Ascii.eqb Bool.eqb py_bool Z.eqb negb].
  set (w0 := set_floating_window_stick_to_edge false w).
  pose proof (storage_window_deleted w0) as Hd.
  destruct (_retracted _); [| exact Hd].
  unfold _expand_from_edge. rewrite clear_indicator_eq. simpl.
  split_tests; exact Hd.
Qed.

(** C7, at the failing input: style 1 (arrow button), auto-hide on.  The
    panel collapses at the left edge and the arrow button appears.  Turning
    the switch off deletes the storage window only: the arrow button stays.
    The next drag released at the edge shows the legacy indicator next to
    it, and both are still there when the switch is turned on again. *)
Theorem C7_legacy_indicator_beside_arrow_button :
  let env := screen_1080p in
  let switch v := SettingChanged "floating_window_management"
                    "flash_window_side_switch" v in
  let collapsed :=
    run env (init env store_docked_arrow 200 100)
      [Leave; AutoHideTimerTimeout; AnimationFinished] in
  let switched_off := step env collapsed (switch 0) in
  let docked :=
    run env switched_off
      [MousePress LeftButton (mkPoint 50 350); DragTimerTimeout;
       MouseRelease LeftButton] in
  let switched_on := step env docked (switch 1) in
  (_indicator collapsed = None /\ is_Some (arrow_widget collapsed)) /\
  (floating_window_stick_to_edge switched_off = false /\
   arrow_widget switched_off = arrow_widget collapsed) /\
  (is_Some (_indicator docked) /\ is_Some (arrow_widget docked)) /\
  (floating_window_stick_to_edge switched_on = true /\
   is_Some (_indicator switched_on) /\ is_Some (arrow_widget switched_on)).
Proof. vm_compute. repeat split; eauto. Qed.

(** * Further properties *)

(** ** Clamping, continued *)

(** X1: on a fixed display, clamping twice is clamping once, and a position
    at which the panel already lies inside the display is returned
    unchanged. *)
Theorem clamp_idempotent_and_identity_inside (env : Screens) (fg : QRect)
    (x y : Z) :
  _clamp_to_screen env fg
    (_clamp_to_screen env fg x y).1 (_clamp_to_screen env fg x y).2
    = _clamp_to_screen env fg x y /\
  (rect_inside (mkRect x y (r_width fg) (r_height fg)) (screen_geo env fg) ->
   _clamp_to_screen env fg x y = (x, y)).
Proof.
  unfold _clamp_to_screen, rect_inside, r_left, r_right, r_top, r_bottom.
  simpl. split.
  - f_equal; lia.
  - intros (? & ? & ? & ?). f_equal; lia.
Qed.

Lemma clamp_idempotent_and_identity_inside_witness :
  _clamp_to_screen screen_1080p (mkRect 0 0 200 100) 640 480 = (640, 480).
Proof.
  apply (clamp_idempotent_and_identity_inside screen_1080p (mkRect 0 0 200 100)).
  vm_compute. repeat split; discriminate.
Defined.

(** The clamped rectangle is inside the display when the panel fits. *)
Lemma clamp_rect_inside env fg x y :
  r_width fg <= r_width (screen_geo env fg) ->
  r_height fg <= r_height (screen_geo env fg) ->
  rect_inside
    (mkRect (_clamp_to_screen env fg x y).1 (_clamp_to_screen env fg x y).2
       (r_width fg) (r_height fg))
    (screen_geo env fg).
Proof.
  intros Hw Hh. unfold rect_inside, _clamp_to_screen, r_left, r_right, r_top,
    r_bottom in *. simpl. lia.
Qed.

(** X2: whatever the store holds for the position (nothing, zero, or a
    point far off screen), a panel that fits the display is inside it once
    [__init__] has run. *)
Theorem init_places_panel_inside (env : Screens)
    (store : gmap (string * string) Z) (width height : Z) :
  let display := screen_geo env (mkRect 0 0 width height) in
  width <= r_width display -> height <= r_height display ->
  rect_inside (geometry (init env store width height)) display.
Proof.
  intros display Hw Hh. unfold init. cbn [geometry].
  set (x := opt_or _ 100). set (y := opt_or _ 100).
  pose proof (clamp_rect_inside env (mkRect 0 0 width height) x y Hw Hh) as H.
  destruct (_clamp_to_screen env (mkRect 0 0 width height) x y) as [nx ny].
  exact H.
Qed.

Lemma init_places_panel_inside_witness :
  rect_inside
    (geometry (init screen_1080p
                 (<[("float_position", "x") := 99999]> ∅) 200 100))
    (mkRect 0 0 1920 1080).
Proof.
  apply (init_places_panel_inside screen_1080p
           (<[("float_position", "x") := 99999]> ∅) 200 100);
    vm_compute; discriminate.
Defined.

(** X3: a change of the stored x or y reaches the window clamped: after
    the notification a panel that fits its display lies inside it, on both
    axes. *)
Theorem float_position_change_is_clamped (env : Screens) (w : Window)
    (second : string) (value : Z) :
  second = "x" \/ second = "y" ->
  win_width w <= r_width (screen_geo env (geometry w)) ->
  win_height w <= r_height (screen_geo env (geometry w)) ->
  rect_inside
    (geometry (step env w (SettingChanged "float_position" second value)))
    (screen_geo env (geometry w)).
Proof.
  intros Hkey Hw Hh. simpl. unfold _on_setting_changed. simpl.
  destruct Hkey as [-> | ->]; simpl.
  - exact (clamp_rect_inside env (geometry w) (py_or value 0) (win_y w) Hw Hh).
  - exact (clamp_rect_inside env (geometry w) (win_x w) (py_or value 0) Hw Hh).
Qed.

Lemma float_position_change_is_clamped_witness :
  rect_inside
    (geometry (step screen_1080p (window_at ∅ 500 2000)
                 (SettingChanged "float_position" "x" (-70))))
    (mkRect 0 0 1920 1080).
Proof.
  apply (float_position_change_is_clamped screen_1080p (window_at ∅ 500 2000)
           "x" (-70)); [by left | vm_compute; discriminate ..].
Defined.

(** ** Edge docking, continued *)

Lemma stick_on_screen env w :
  _stick_to_nearest_edge env w = stick_on (screen_geo env (geometry w)) w.
Proof. reflexivity. Qed.

Lemma stick_on_idempotent geo w :
  win_width w + 5 < r_width geo -> stick_on geo (stick_on geo w) = stick_on geo w.
Proof.
  unfold stick_on, _show_indicator, _clear_indicator, _edge_threshold, move,
    win_width, win_height, win_y, r_move, r_left, r_right.
  destruct w as [[x y ww wh] ? ? ? ind ? ? ? stick ? ? ? ? flag ? ? ? ? ? ? ?
                   ? ?].
  simpl. intros Hnarrow.
  destruct stick; simpl; [| reflexivity].
  destruct (Z.leb_spec (x - r_x geo) 5) as [Hl | Hl]; simpl.
  - destruct flag, ind; simpl;
      (destruct (Z.leb_spec (r_x geo - r_x geo) 5); [reflexivity | lia]).
  - destruct (Z.leb_spec (r_x geo + r_width geo - 1 - (x + ww - 1)) 5)
      as [Hr | Hr]; simpl.
    + destruct flag, ind; simpl;
        (destruct (Z.leb_spec (r_x geo + r_width geo - 1 - ww + 1 - r_x geo) 5);
         [lia |];
         destruct (Z.leb_spec
                     (r_x geo + r_width geo - 1 -
                      (r_x geo + r_width geo - 1 - ww + 1 + ww - 1)) 5);
         [reflexivity | lia]).
    + destruct (Z.leb_spec (x - r_x geo) 5); [lia |].
      destruct (Z.leb_spec (r_x geo + r_width geo - 1 - (x + ww - 1)) 5);
        [lia | reflexivity].
Qed.

(** X4: docking is idempotent.  While the panel stays on the same display
    and is at least 6 px narrower than it, evaluating the dock a second
    time changes nothing. *)
Theorem stick_to_nearest_edge_idempotent (env : Screens) (w : Window) :
  screen_geo env (geometry (_stick_to_nearest_edge env w))
    = screen_geo env (geometry w) ->
  win_width w + 5 < r_width (screen_geo env (geometry w)) ->
  _stick_to_nearest_edge env (_stick_to_nearest_edge env w)
    = _stick_to_nearest_edge env w.
Proof.
  intros Hscreen Hnarrow.
  rewrite (stick_on_screen env (_stick_to_nearest_edge env w)), Hscreen.
  rewrite stick_on_screen. by apply stick_on_idempotent.
Qed.

Lemma stick_to_nearest_edge_idempotent_witness :
  let w := window_at store_stick_5s 1718 300 in
  _stick_to_nearest_edge screen_1080p (_stick_to_nearest_edge screen_1080p w)
    = _stick_to_nearest_edge screen_1080p w.
Proof.
  intros w. apply stick_to_nearest_edge_idempotent; vm_compute; reflexivity.
Defined.

(** X5: a dock moves the panel sideways only, and leaves a panel no wider
    than the display inside it horizontally and touching the edge it
    docked to. *)
Theorem dock_is_flush_and_horizontal (env : Screens) (w : Window) :
  let geo := screen_geo env (geometry w) in
  let w' := _stick_to_nearest_edge env w in
  win_y w' = win_y w /\ win_width w' = win_width w /\
  win_height w' = win_height w /\
  (_stick_to_edge w = true -> _last_stuck w' = true ->
   win_width w <= r_width geo ->
   r_left geo <= r_left (geometry w') /\
   r_right (geometry w') <= r_right geo /\
   (r_left (geometry w') = r_left geo \/ r_right (geometry w') = r_right geo)).
Proof.
  intros geo w'. subst w'. rewrite stick_on_screen. fold geo.
  unfold stick_on, _show_indicator, _clear_indicator, _edge_threshold, move,
    win_width, win_height, win_y, r_move, r_left, r_right.
  destruct w as [[x y ww wh] ? ? ? ind ? ? ? stick ? ? ? ? flag ? ? ? ? ? ? ?
                   ? ?].
  simpl. generalize geo. clear geo. intros geo.
  destruct stick; simpl.
  2: { repeat split; discriminate. }
  destruct (Z.leb_spec (x - r_x geo) 5) as [Hl | Hl]; simpl.
  - destruct flag, ind; simpl; repeat split; intros; lia.
  - destruct (Z.leb_spec (r_x geo + r_width geo - 1 - (x + ww - 1)) 5)
      as [Hr | Hr]; simpl.
    + destruct flag, ind; simpl; repeat split; intros; lia.
    + repeat split; intros; discriminate.
Qed.

Lemma dock_is_flush_and_horizontal_witness :
  let w' := _stick_to_nearest_edge screen_1080p
              (window_at store_stick_5s 1718 300) in
  0 <= r_left (geometry w') /\ r_right (geometry w') <= 1919 /\
  (r_left (geometry w') = 0 \/ r_right (geometry w') = 1919).
Proof.
  intros w'.
  destruct (dock_is_flush_and_horizontal screen_1080p
              (window_at store_stick_5s 1718 300)) as (_ & _ & _ & H).
  exact (H eq_refl eq_refl ltac:(vm_compute; discriminate)).
Defined.

(** ** The legacy retract, continued *)

Lemma retract_on_screen env w :
  _retract_into_edge env w = retract_on (screen_geo env (geometry w)) w.
Proof. reflexivity. Qed.

Lemma expand_on_screen env w :
  _expand_from_edge env w = expand_on (screen_geo env (geometry w)) w.
Proof. reflexivity. Qed.

Ltac open_window w :=
  unfold inside_horizontally, retract_on, expand_on, _show_indicator,
    _clear_indicator, move, win_x, win_width, win_height, win_y, r_move,
    r_left, r_right;
  destruct w as [[? ? ? ?] ? ? ? [?|] ? ? ? ? ? ? ? ? [] ? ? ? ? ? ? ? ? ?];
  simpl.

Ltac decide_tests :=
  repeat (simpl in *;
          match goal with
          | |- context [?a <=? ?b] => destruct (Z.leb_spec a b)
          | |- context [?a <? ?b] => destruct (Z.ltb_spec a b)
          | |- context [?a >=? ?b] => destruct (Z.geb_spec a b)
          | |- context [?a >? ?b] => destruct (Z.gtb_spec a b)
          end); simpl in *.

(** X6: retracting a panel that is flush with the left or right edge of
    its display leaves a strip of exactly 16 px of it on the display, at
    the same height, and marks it retracted. *)
Theorem retract_into_edge_leaves_handle (env : Screens) (w : Window) :
  let geo := screen_geo env (geometry w) in
  let w' := _retract_into_edge env w in
  16 <= win_width w <= r_width geo ->
  (win_x w = r_left geo ->
   _retracted w' = true /\ win_y w' = win_y w /\
   r_right (geometry w') = r_left geo + 15) /\
  (r_left geo < win_x w -> r_right (geometry w) = r_right geo ->
   _retracted w' = true /\ win_y w' = win_y w /\
   r_left (geometry w') = r_right geo - 15).
Proof.
  intros geo w'. subst w'. rewrite retract_on_screen. fold geo.
  generalize geo. clear geo. intros geo. open_window w;
    intros; decide_tests; repeat split; intros; try lia; try reflexivity.
Qed.

Lemma retract_into_edge_leaves_handle_witness :
  r_right (geometry (_retract_into_edge screen_1080p
                       (window_at store_stick_5s 0 300))) = 15.
Proof.
  destruct (retract_into_edge_leaves_handle screen_1080p
              (window_at store_stick_5s 0 300)) as [H _];
    [vm_compute; split; discriminate |].
  destruct H as (_ & _ & H); [reflexivity | exact H].
Defined.

(** X7: retract followed by expand is a round trip.  A panel of width 16 to
    the display's width that is flush with an edge, retracted and then
    expanded on the same display is back at the geometry it had, not
    retracted and without indicator. *)
Theorem retract_expand_round_trip (env : Screens) (w : Window) :
  let geo := screen_geo env (geometry w) in
  screen_geo env (geometry (_retract_into_edge env w)) = geo ->
  16 <= win_width w <= r_width geo ->
  win_x w = r_left geo \/ r_right (geometry w) = r_right geo ->
  let w' := _expand_from_edge env (_retract_into_edge env w) in
  geometry w' = geometry w /\ _retracted w' = false /\ _indicator w' = None.
Proof.
  intros geo Hscreen Hwidth Hflush w'. subst w'.
  rewrite expand_on_screen, Hscreen, retract_on_screen. fold geo.
  revert Hwidth Hflush. generalize geo. clear Hscreen geo. intros geo.
  open_window w; intros Hwidth Hflush; decide_tests;
    repeat split; try reflexivity; try lia; f_equal; lia.
Qed.

Lemma retract_expand_round_trip_witness :
  let w := window_at store_stick_5s 1720 300 in
  geometry (_expand_from_edge screen_1080p (_retract_into_edge screen_1080p w))
    = mkRect 1720 300 200 100.
Proof.
  intros w.
  destruct (retract_expand_round_trip screen_1080p w) as [H _];
    [reflexivity | vm_compute; split; discriminate | right; reflexivity |].
  exact H.
Defined.

(** The state [_expand_from_edge] ends in. *)
Lemma expand_from_edge_state (env : Screens) (w : Window) :
  let geo := screen_geo env (geometry w) in
  let w' := _expand_from_edge env w in
  _retracted w' = false /\ _indicator w' = None /\ win_y w' = win_y w /\
  (win_width w <= r_width geo -> inside_horizontally (geometry w') geo).
Proof.
  intros geo w'. subst w'. rewrite expand_on_screen. fold geo.
  generalize geo. clear geo. intros geo.
  open_window w; decide_tests; repeat split; intros; try reflexivity; lia.
Qed.

(** X8: [_expand_from_edge] always ends not retracted and without the
    legacy indicator, keeps the height, and puts a panel no wider than the
    display between the display's left and right edges. *)
Theorem expand_from_edge_brings_panel_back (env : Screens) (w : Window) :
  let geo := screen_geo env (geometry w) in
  let w' := _expand_from_edge env w in
  _retracted w' = false /\ _indicator w' = None /\ win_y w' = win_y w /\
  (win_width w <= r_width geo -> inside_horizontally (geometry w') geo).
Proof. exact (expand_from_edge_state env w). Qed.

Lemma expand_from_edge_brings_panel_back_witness :
  inside_horizontally
    (geometry (_expand_from_edge screen_1080p (window_at ∅ (-184) 300)))
    (mkRect 0 0 1920 1080).
Proof.
  destruct (expand_from_edge_brings_panel_back screen_1080p
              (window_at ∅ (-184) 300)) as (_ & _ & _ & H).
  apply H. vm_compute. discriminate.
Defined.

(** X9: turning the auto-hide switch off while the panel is retracted
    brings it back: the flag is off, the storage window is gone, the panel
    is no longer retracted, shows no legacy indicator and, if it is no
    wider than its display, lies between the display's side edges. *)
Theorem switch_off_brings_panel_back (env : Screens) (w : Window) :
  _retracted w = true ->
  let geo := screen_geo env (geometry w) in
  let w' := step env w (SettingChanged "floating_window_management"
                          "flash_window_side_switch" 0) in
  floating_window_stick_to_edge w' = false /\ storage_window w' = None /\
  _retracted w' = false /\ _indicator w' = None /\
  (win_width w <= r_width geo -> inside_horizontally (geometry w') geo).
Proof.
  intros Hretracted geo w'. subst w'. simpl. unfold _on_setting_changed.
  cbn [String.eqb Ascii.eqb Bool.eqb py_bool Z.eqb negb].
  set (w0 := _delete_storage_window _).
  assert (H0 : geometry w0 = geometry w /\ _retracted w0 = true /\
               storage_window w0 = None /\
               floating_window_stick_to_edge w0 = false).
  { unfold w0, _delete_storage_window. simpl.
    destruct (storage_window w) eqn:E; simpl; rewrite ?E; repeat split; done. }
  destruct H0 as (Hg & Hr & Hs & Hf). rewrite Hr.
  destruct (expand_from_edge_state env w0) as (E1 & E2 & _ & E4).
  rewrite Hg in E4. fold geo in E4.
  assert (Hkeep : storage_window (_expand_from_edge env w0) = None /\
                  floating_window_stick_to_edge (_expand_from_edge env w0)
                    = false).
  { unfold _expand_from_edge. rewrite clear_indicator_eq. simpl.
    split_tests; split; simpl; assumption. }
  destruct Hkeep as [K1 K2].
  unfold win_width in E4. rewrite Hg in E4.
  split; [exact K2 | split; [exact K1 | split; [exact E1 |
    split; [exact E2 | exact E4]]]].
Qed.

Lemma switch_off_brings_panel_back_witness :
  let w := run screen_1080p (init screen_1080p store_docked_legacy 200 100)
             [Leave; AutoHideTimerTimeout; AnimationFinished] in
  let w' := step screen_1080p w
              (SettingChanged "floating_window_management"
                 "flash_window_side_switch" 0) in
  geometry w = mkRect (-190) 300 200 100 /\
  _retracted w' = false /\
  inside_horizontally (geometry w') (mkRect 0 0 1920 1080).
Proof.
  intros w w'. split; [reflexivity |].
  destruct (switch_off_brings_panel_back screen_1080p w)
    as (_ & _ & H3 & _ & H5); [reflexivity |].
  split; [exact H3 |]. apply H5. vm_compute. discriminate.
Defined.

(** ** Dragging, continued *)

Lemma drag_move_keeps_grab p w :
  grab_offset (drag_move p w) = grab_offset w /\
  win_width (drag_move p w) = win_width w /\
  win_height (drag_move p w) = win_height w /\
  _draggable (drag_move p w) = _draggable w /\
  (_dragging (drag_move p w) = true -> _press_pos (drag_move p w) = p).
Proof.
  unfold drag_move, _begin_drag, _cancel_retract, grab_offset, move, win_x,
    win_y, win_width, win_height, r_move.
  destruct w as [[x y ww wh] ? dragging [px py] ? [active ? ?] ? ? ? ? ? ? ? ?
                   ? ? ? ? ? ? ? ? ?].
  destruct p as [cx cy]. simpl.
  destruct dragging; simpl.
  - destruct active; simpl; repeat split; f_equal; lia.
  - destruct ((Z.abs (cx - px) >=? 3) || (Z.abs (cy - py) >=? 3)); simpl.
    + destruct active; simpl; repeat split; f_equal; lia.
    + repeat split; discriminate.
Qed.

Lemma drag_phase_keeps_grab env e w :
  drag_phase e -> _draggable w = true ->
  grab_offset (step env w e) = grab_offset w /\
  win_width (step env w e) = win_width w /\
  win_height (step env w e) = win_height w /\
  _draggable (step env w e) = true.
Proof.
  intros He Hd. destruct e; try done; simpl.
  - unfold mouseMoveEvent. rewrite Hd, andb_true_r.
    destruct left_down; [| done].
    destruct (drag_move_keeps_grab gpos w) as (? & ? & ? & Hk & _).
    rewrite Hk. done.
  - unfold filterMove. rewrite Hd. simpl.
    destruct left_down; [| done].
    destruct (drag_move_keeps_grab gpos w) as (? & ? & ? & Hk & _).
    rewrite Hk. done.
  - destruct (t_active (_drag_timer w)); done.
Qed.

Lemma drag_phase_run_keeps_grab env evs : forall w,
  Forall drag_phase evs -> _draggable w = true ->
  grab_offset (run env w evs) = grab_offset w /\
  win_width (run env w evs) = win_width w /\
  win_height (run env w evs) = win_height w /\
  _draggable (run env w evs) = true.
Proof.
  induction evs as [| e evs IH]; intros w Hall Hd; [done |].
  inversion Hall as [| ? ? He Hrest]; subst.
  destruct (drag_phase_keeps_grab env e w He Hd) as (Hg & Hw & Hh & Hd').
  destruct (IH (step env w e) Hrest Hd') as (Hg2 & Hw2 & Hh2 & Hd2).
  rewrite run_cons. rewrite Hg2, Hw2, Hh2, Hg, Hw, Hh. done.
Qed.

Lemma run_app env evs1 evs2 w :
  run env w (evs1 ++ evs2) = run env (run env w evs1) evs2.
Proof. unfold run. apply foldl_app. Qed.

(** A pointer move either leaves the window as it is or leaves it
    dragging, and a drag under way stays under way. *)
Lemma drag_move_idle_or_dragging p w :
  (_dragging (drag_move p w) = false -> drag_move p w = w) /\
  (_dragging w = true -> _dragging (drag_move p w) = true).
Proof.
  unfold drag_move, _begin_drag, _cancel_retract.
  destruct (_dragging w) eqn:E; simpl.
  - rewrite E. destruct (t_active _); simpl; split; congruence.
  - destruct (_ || _); simpl; [| rewrite E; split; congruence].
    destruct (t_active _); simpl; split; congruence.
Qed.

Lemma drag_phase_idle_or_dragging env e w :
  drag_phase e -> _draggable w = true ->
  (_dragging (step env w e) = false -> step env w e = w) /\
  (_dragging w = true -> _dragging (step env w e) = true).
Proof.
  intros He Hd. destruct e; try done; simpl.
  - unfold mouseMoveEvent. rewrite Hd, andb_true_r.
    destruct left_down; [apply drag_move_idle_or_dragging | done].
  - unfold filterMove. rewrite Hd. simpl.
    destruct left_down; [apply drag_move_idle_or_dragging | done].
  - destruct (t_active (_drag_timer w)); simpl; split; congruence.
Qed.

Lemma drag_phase_run_dragging env evs : forall w,
  Forall drag_phase evs -> _draggable w = true -> _dragging w = true ->
  _dragging (run env w evs) = true.
Proof.
  induction evs as [| e evs IH]; intros w Hall Hd Hg; [done |].
  inversion Hall as [| ? ? He Hrest]; subst. rewrite run_cons.
  destruct (drag_phase_keeps_grab env e w He Hd) as (_ & _ & _ & Hd').
  apply IH; [done | done |].
  by apply (drag_phase_idle_or_dragging env e w He Hd).
Qed.

Lemma drag_phase_run_idle env evs : forall w,
  Forall drag_phase evs -> _draggable w = true ->
  _dragging (run env w evs) = false -> run env w evs = w.
Proof.
  induction evs as [| e evs IH]; intros w Hall Hd Hidle; [done |].
  inversion Hall as [| ? ? He Hrest]; subst. rewrite run_cons in *.
  destruct (drag_phase_keeps_grab env e w He Hd) as (_ & _ & _ & Hd').
  destruct (_dragging (step env w e)) eqn:Estep.
  - rewrite (drag_phase_run_dragging env evs _ Hrest Hd' Estep) in Hidle.
    discriminate.
  - destruct (drag_phase_idle_or_dragging env e w He Hd) as [Hsame _].
    rewrite (Hsame Estep) in *. by apply IH.
Qed.

(** X10: while dragging is enabled the panel follows the pointer exactly.
    After a left press at [origin], any pointer moves and long-press
    timeout, and a last move to [last]: if a drag is under way, the panel
    has moved by [last - origin] (none of the 3 px threshold is lost);
    otherwise it has not moved at all.  Its size is the same either way. *)
Theorem drag_follows_pointer (env : Screens) (w : Window) (origin last : QPoint)
    (evs : list Event) :
  _draggable w = true -> Forall drag_phase evs ->
  let s := run env w
             (MousePress LeftButton origin :: evs ++ [MouseMove true last]) in
  (if _dragging s
   then win_x s = win_x w + (pt_x last - pt_x origin) /\
        win_y s = win_y w + (pt_y last - pt_y origin)
   else win_x s = win_x w /\ win_y s = win_y w) /\
  win_width s = win_width w /\ win_height s = win_height w.
Proof.
  intros Hd Hevs s. subst s. rewrite run_cons, run_app.
  set (w1 := step env w (MousePress LeftButton origin)).
  assert (H1 : grab_offset w1 = (win_x w - pt_x origin, win_y w - pt_y origin)
               /\ geometry w1 = geometry w /\ _draggable w1 = true).
  { unfold w1. simpl. unfold mousePressEvent. simpl. rewrite Hd. simpl. done. }
  destruct H1 as (Hg1 & Hgeo1 & Hd1).
  destruct (drag_phase_run_keeps_grab env evs w1 Hevs Hd1)
    as (Hg2 & Hw2 & Hh2 & Hd2).
  set (w2 := run env w1 evs) in *.
  rewrite run_cons, run_nil.
  change (step env w2 (MouseMove true last)) with (mouseMoveEvent true last w2).
  unfold mouseMoveEvent. rewrite Hd2. cbn [andb].
  destruct (drag_move_keeps_grab last w2) as (Hg3 & Hw3 & Hh3 & _ & Hp3).
  rewrite Hw3, Hh3, Hw2, Hh2. unfold win_width, win_height. rewrite Hgeo1.
  split; [| done].
  destruct (_dragging (drag_move last w2)) eqn:Hdrag.
  - rewrite Hg2, Hg1 in Hg3. unfold grab_offset in Hg3.
    rewrite (Hp3 eq_refl) in Hg3. injection Hg3 as Hx Hy. lia.
  - destruct (drag_move_idle_or_dragging last w2) as [Hsame _].
    pose proof (Hsame Hdrag) as Heq. rewrite Heq in Hdrag |- *.
    unfold w2 in *.
    rewrite (drag_phase_run_idle env evs w1 Hevs Hd1 Hdrag).
    unfold win_x, win_y. by rewrite Hgeo1.
Qed.

Lemma drag_follows_pointer_witness :
  let s := run screen_1080p (window_at ∅ 500 300)
             [MousePress LeftButton (mkPoint 550 330);
              MouseMove true (mkPoint 551 331);
              DragTimerTimeout;
              MouseMove true (mkPoint 700 400)] in
  win_x s = 650 /\ win_y s = 370.
Proof.
  intros s.
  destruct (drag_follows_pointer screen_1080p (window_at ∅ 500 300)
              (mkPoint 550 330) (mkPoint 700 400)
              [MouseMove true (mkPoint 551 331); DragTimerTimeout])
    as [H _]; [reflexivity | repeat constructor |].
  exact H.
Defined.

(** X11: what a click does.  From a window that is not being dragged, a
    left press, moves that stay below 3 px on both axes and the release
    neither move or resize the panel, nor write the stored position or emit
    [positionChanged], nor touch the legacy indicator, the retract timer,
    the panel's animation or its retracted state.  With the auto-hide flag
    off nothing is queued either.  With the flag on the release queues one
    call of [_check_edge_proximity], 100 ms later: that call, not the
    click, is what may then save the position or collapse the panel. *)
Theorem click_only_queues_proximity_check (env : Screens) (w : Window)
    (origin : QPoint) (moves : list Event) :
  _dragging w = false -> Forall (small_move origin) moves ->
  let s := run env w
             (MousePress LeftButton origin :: moves
                ++ [MouseRelease LeftButton]) in
  geometry s = geometry w /\ persisted s = persisted w /\
  _indicator s = _indicator w /\ _retract_timer s = _retract_timer w /\
  animation s = animation w /\ _retracted s = _retracted w /\
  single_shots s
    = single_shots w ++
      (if floating_window_stick_to_edge w
       then [(100, Slot_check_edge_proximity)] else []).
Proof.
  intros Hidle Hsmall s. subst s. rewrite run_cons, run_app.
  pose proof (press_gives_pressed_at origin w Hidle) as Hp.
  change (step env w (MousePress LeftButton origin))
    with (mousePressEvent LeftButton origin w).
  set (w1 := mousePressEvent LeftButton origin w) in *.
  destruct (small_moves_change_nothing env origin moves w1 Hp Hsmall)
    as [-> _].
  rewrite run_cons, run_nil.
  change (step env w1 (MouseRelease LeftButton))
    with (mouseReleaseEvent env LeftButton w1).
  assert (H1 : geometry w1 = geometry w /\ persisted w1 = persisted w /\
               _indicator w1 = _indicator w /\
               _retract_timer w1 = _retract_timer w /\
               animation w1 = animation w /\ _retracted w1 = _retracted w /\
               single_shots w1 = single_shots w /\
               floating_window_stick_to_edge w1
                 = floating_window_stick_to_edge w).
  { unfold w1, mousePressEvent. destruct (_ && _); done. }
  destruct H1 as (<- & <- & <- & <- & <- & <- & <- & <-).
  unfold mouseReleaseEvent. cbn [is_left].
  set (w0 := set_drag_timer _ w1).
  change (_dragging w0) with (_dragging w1).
  destruct Hp as [-> _]. rewrite andb_false_r.
  change (floating_window_stick_to_edge w0)
    with (floating_window_stick_to_edge w1).
  destruct (floating_window_stick_to_edge w1); simpl;
    rewrite ?app_nil_r; done.
Qed.

Lemma click_only_queues_proximity_check_witness :
  let w := window_at store_stick_5s 3 300 in
  let s := run screen_1080p w
             (MousePress LeftButton (mkPoint 50 350)
                :: [MouseMove true (mkPoint 52 349)]
                ++ [MouseRelease LeftButton]) in
  geometry s = geometry w /\ persisted s = persisted w /\
  single_shots s = [(100, Slot_check_edge_proximity)].
Proof.
  intros w s.
  destruct (click_only_queues_proximity_check screen_1080p w (mkPoint 50 350)
              [MouseMove true (mkPoint 52 349)])
    as (Hg & Hp & _ & _ & _ & _ & Hq);
    [reflexivity | | split; [exact Hg | split; [exact Hp | exact Hq]]].
  constructor; [| constructor]. split; reflexivity.
Defined.

(** ** The auto-hide cycle *)

(** What the end-of-collapse callback leaves alone. *)
Lemma on_animation_finished_frame d ix wy wh w :
  let w' := on_animation_finished d ix wy wh w in
  geometry w' = geometry w /\ _original_position w' = _original_position w /\
  floating_window_stick_to_edge w' = floating_window_stick_to_edge w /\
  _stick_indicator_style w' = _stick_indicator_style w /\
  custom_retract_time w' = custom_retract_time w /\
  _auto_hide_timer w' = _auto_hide_timer w /\
  _retracted w' = true /\
  (if _stick_indicator_style w =? 0 then is_Some (storage_window w')
   else is_Some (arrow_widget w')).
Proof.
  unfold on_animation_finished, _create_storage_window, _create_arrow_button,
    _delete_storage_window, _delete_arrow_button. simpl.
  split_tests; repeat split; eauto.
Qed.

(** The state in which the first [finished] of a collapse leaves the
    window. *)
Lemma collapse_finished_state env w :
  floating_window_stick_to_edge w = true -> at_edge env w ->
  let c := run env (_check_edge_proximity env w) [AnimationFinished] in
  geometry c = a_end (collapse_animation env w) /\
  _original_position c = Some (default (win_pos w) (_original_position w)) /\
  floating_window_stick_to_edge c = true /\
  _stick_indicator_style c = _stick_indicator_style w /\
  custom_retract_time c = custom_retract_time w /\
  _auto_hide_timer c = _auto_hide_timer w /\
  _retracted c = true /\
  (if _stick_indicator_style w =? 0 then is_Some (storage_window c)
   else is_Some (arrow_widget c)).
Proof.
  intros Hflag Hedge c. subst c.
  rewrite check_edge_proximity_collapses by done.
  set (a := collapse_animation env w).
  assert (Ha : a_running a = true /\
               exists d ix, a_finished a =
                 [Cb_on_animation_finished d ix (win_y w) (win_height w)]).
  { unfold a, collapse_animation. destruct (win_x w <=? 5); eauto. }
  destruct Ha as (Harun & d & ix & Hafin).
  rewrite run_cons, run_nil.
  erewrite animation_finished_eq by (reflexivity || exact Harun).
  rewrite Hafin. cbn [run_callbacks foldl run_callback].
  match goal with
  | |- context [on_animation_finished d ix _ _ ?x] => set (w2 := x)
  end.
  destruct (on_animation_finished_frame d ix (win_y w) (win_height w) w2)
    as (H1 & H2 & H3 & H4 & H5 & H6 & H7 & H8).
  split; [rewrite H1; reflexivity |].
  split; [rewrite H2; reflexivity |].
  split; [rewrite H3; exact Hflag |].
  split; [rewrite H4; reflexivity |].
  split; [rewrite H5; reflexivity |].
  split; [rewrite H6; reflexivity |].
  split; [exact H7 |].
  exact H8.
Qed.

(** X12: a collapse is stable.  For a panel at least 5 px wide on a primary
    screen wider than 15 px, the collapse remembers the pre-collapse
    position unless one is already remembered, and running the proximity
    check again on the collapsed panel leaves it at the same rectangle,
    retracted, with the remembered position untouched. *)
Theorem collapse_is_stable (env : Screens) (w : Window) :
  floating_window_stick_to_edge w = true -> at_edge env w ->
  5 <= win_width w -> 15 < r_width (primaryScreen env) ->
  let c := run env (_check_edge_proximity env w) [AnimationFinished] in
  let c' := run env (_check_edge_proximity env c) [AnimationFinished] in
  _original_position c = Some (default (win_pos w) (_original_position w)) /\
  geometry c' = geometry c /\ _original_position c' = _original_position c /\
  _retracted c' = true.
Proof.
  intros Hflag Hedge Hwide Hscreen c c'.
  destruct (collapse_finished_state env w Hflag Hedge)
    as (Hg & Ho & Hf & _ & _ & _ & _).
  fold c in Hg, Ho, Hf.
  assert (Hedge' : at_edge env c /\
                   a_end (collapse_animation env c)
                     = a_end (collapse_animation env w)).
  { unfold at_edge, collapse_animation, win_x, win_width, win_y, win_height.
    rewrite Hg. unfold collapse_animation, at_edge, win_x, win_width, win_y,
      win_height in *.
    destruct (Z.leb_spec (r_x (geometry w)) 5); simpl.
    - destruct (Z.leb_spec (- r_width (geometry w) + 10) 5); [| lia].
      split; [left; lia | reflexivity].
    - destruct (Z.leb_spec (r_width (primaryScreen env) - 10) 5); [lia |].
      split; [right; lia | reflexivity]. }
  destruct Hedge' as [Hedge' Hsame].
  destruct (collapse_finished_state env c Hf Hedge')
    as (Hg' & Ho' & _ & _ & _ & _ & Hr' & _).
  fold c' in Hg', Ho', Hr'.
  rewrite Hg', Ho', Hsame, Hg, Ho. done.
Qed.

Lemma collapse_is_stable_witness :
  let env := screen_1080p in
  let c := run env (_check_edge_proximity env
                      (init env store_docked_legacy 200 100))
             [AnimationFinished] in
  _original_position c = Some (mkPoint 3 300) /\
  geometry (run env (_check_edge_proximity env c) [AnimationFinished])
    = geometry c.
Proof.
  intros env c.
  destruct (collapse_is_stable env (init env store_docked_legacy 200 100))
    as (Ho & Hg & _); [reflexivity | left | | | ]; try (vm_compute; congruence).
  split; [exact Ho | exact Hg].
Defined.

(** Leaving an expanded panel with the auto-hide flag on: a timer that is
    still running is stopped and a new one started. *)
Lemma leave_arms_auto_hide w :
  floating_window_stick_to_edge w = true -> _retracted w = false ->
  0 <= custom_retract_time w <= 2147483 ->
  leaveEvent w
  = set_auto_hide_timer
      (Some (mkTimer true (custom_retract_time w * 1000) true)) w.
Proof.
  intros Hflag Hr Hfit.
  assert (Hms : fits_int (custom_retract_time w * 1000) = true).
  { unfold fits_int.
    destruct (Z.leb_spec (-2147483648) (custom_retract_time w * 1000));
      [| lia].
    destruct (Z.leb_spec (custom_retract_time w * 1000) 2147483647); [| lia].
    reflexivity. }
  unfold leaveEvent. rewrite Hr. cbn beta iota. rewrite Hflag, Hr.
  cbn [andb negb]. unfold new_auto_hide_timer.
  destruct (_auto_hide_timer w) as [t |] eqn:Et;
    [destruct (t_active t) eqn:Ea |];
    cbn -[fits_int Z.mul]; rewrite ?Et, ?Ea; cbn -[fits_int Z.mul];
    rewrite Hms; reflexivity.
Qed.

(** The timeout of the auto-hide timer runs the proximity check. *)
Lemma auto_hide_timeout_checks env w ms :
  floating_window_stick_to_edge w = true ->
  step env
    (set_auto_hide_timer (Some (mkTimer true ms true)) w) AutoHideTimerTimeout
  = _check_edge_proximity env
      (set_auto_hide_timer (Some (mkTimer false ms true)) w).
Proof.
  intros Hflag. cbn -[_check_edge_proximity].
  unfold _auto_hide_window. cbn -[_check_edge_proximity].
  rewrite Hflag. by destruct w.
Qed.

(** X13: leaving the panel starts the auto-hide.  With the auto-hide flag
    on, the panel expanded at a screen edge and [custom_retract_time]
    between 0 and 2147483 s, the pointer leaving the panel starts the
    single-shot auto-hide timer for that many seconds and moves nothing.
    When the timer fires, the panel collapses: it ends at the collapsed
    rectangle, retracted, with the indicator of the configured style, and
    the position it had is remembered unless an earlier one still is.  If
    the pointer enters the panel first, the timer is dropped and its
    timeout no longer does anything. *)
Theorem leave_starts_auto_hide (env : Screens) (w : Window) :
  floating_window_stick_to_edge w = true -> _retracted w = false ->
  at_edge env w -> 0 <= custom_retract_time w <= 2147483 ->
  let l := step env w Leave in
  (_auto_hide_timer l
     = Some (mkTimer true (custom_retract_time w * 1000) true) /\
   geometry l = geometry w /\ animation l = animation w) /\
  (let c := run env l [AutoHideTimerTimeout; AnimationFinished] in
   geometry c = a_end (collapse_animation env w) /\ _retracted c = true /\
   _original_position c = Some (default (win_pos w) (_original_position w)) /\
   (if _stick_indicator_style w =? 0 then is_Some (storage_window c)
    else is_Some (arrow_widget c))) /\
  (let e := run env l [Enter; AutoHideTimerTimeout] in
   e = set_auto_hide_timer None w).
Proof.
  intros Hflag Hr Hedge Hfit l. subst l.
  change (step env w Leave) with (leaveEvent w).
  rewrite (leave_arms_auto_hide w Hflag Hr Hfit).
  split; [done |]. split.
  - rewrite run_cons, auto_hide_timeout_checks by exact Hflag.
    set (w1 := set_auto_hide_timer _ w).
    destruct (collapse_finished_state env w1 Hflag Hedge)
      as (Hg & Ho & _ & _ & _ & _ & Hret & Hind).
    split; [exact Hg |]. split; [exact Hret |]. split; [exact Ho |].
    exact Hind.
  - by destruct w.
Qed.

Lemma leave_starts_auto_hide_witness :
  let env := screen_1080p in
  let w := init env store_docked_legacy 200 100 in
  let l := step env w Leave in
  _auto_hide_timer l = Some (mkTimer true 5000 true) /\
  geometry (run env l [AutoHideTimerTimeout; AnimationFinished])
    = mkRect (-190) 300 200 100 /\
  run env l [Enter; AutoHideTimerTimeout] = set_auto_hide_timer None w.
Proof.
  intros env w l.
  destruct (leave_starts_auto_hide env w) as ((Ht & _) & (Hg & _) & He);
    [reflexivity | reflexivity | left; vm_compute; discriminate
    | vm_compute; split; discriminate |].
  split; [exact Ht |]. split; [exact Hg | exact He].
Defined.

(** ** Buttons, continued *)

Lemma every_row_ok : Forall row_ok combos.
Proof. apply (bool_decide_unpack _). vm_compute. exact I. Qed.

Lemma map_button_control_row idx row :
  _map_button_control idx = Some row -> row ∈ combos.
Proof.
  unfold _map_button_control, py_getitem.
  destruct ((idx <? 0) || (idx >=? Z.of_nat (length combos))) eqn:Hrange.
  - simpl. intros [= <-]. apply list_elem_of_here.
  - apply orb_false_iff in Hrange as [Hneg _].
    apply Z.ltb_ge in Hneg.
    destruct (Z.leb_spec 0 idx); [| lia].
    apply list_elem_of_lookup_2.
Qed.

(** X14: whatever index is stored, the buttons of the panel can be told
    apart: the row has one to four actions, each of them one of the five
    known names (so the fallback branch of [_create_button] only ever
    builds the lottery button for "lottery"), and no two buttons are
    connected to the same signal. *)
Theorem buttons_are_distinct_known_actions (idx : Z) (row : list string) :
  _map_button_control idx = Some row ->
  Forall (fun spec => spec ∈ known_actions) row /\
  NoDup (btn_sig <$> (_create_button <$> row)) /\
  (0 < length row <= 4)%nat.
Proof.
  intros Hrow. apply map_button_control_row in Hrow.
  pose proof every_row_ok as Hall. rewrite Forall_forall in Hall.
  exact (Hall row Hrow).
Qed.

Lemma buttons_are_distinct_known_actions_witness :
  NoDup (btn_sig <$> (_create_button <$> ["roll_call"; "custom_draw"; "lottery"])).
Proof.
  destruct (buttons_are_distinct_known_actions 13
              ["roll_call"; "custom_draw"; "lottery"]) as (_ & H & _);
    [reflexivity | exact H].
Defined.

Lemma add_buttons_from_container placement total specs : forall i lay,
  placement = 1 \/ placement = 2 ->
  add_buttons_from placement total i specs lay =
    mkLayouts (container_items lay ++ specs) (top_items lay) (bottom_items lay).
Proof.
  induction specs as [| spec rest IH]; intros i lay Hp; simpl.
  - rewrite app_nil_r. by destruct lay.
  - rewrite IH by done. unfold _add_button.
    destruct Hp as [-> | ->]; simpl; by rewrite <- app_assoc.
Qed.

(** X15: the layout loses, repeats and reorders no button.  With placement
    1 or 2 every button is in the container's layout, in order, and the two
    rows are unused; with any other placement the container's own layout is
    unused and the top row followed by the bottom row is the button list,
    the top row holding as many buttons as the bottom row or one more. *)
Theorem layout_keeps_every_button (placement : Z) (specs : list string) :
  let lay := build_buttons placement specs in
  if decide (placement = 1 \/ placement = 2)
  then container_items lay = specs /\ top_items lay = [] /\
       bottom_items lay = []
  else container_items lay = [] /\ top_items lay ++ bottom_items lay = specs /\
       (length (bottom_items lay) <= length (top_items lay)
        <= length (bottom_items lay) + 1)%nat.
Proof.
  intros lay. subst lay. unfold build_buttons.
  destruct (decide (placement = 1 \/ placement = 2)) as [Hp | Hp].
  - rewrite add_buttons_from_container by done. done.
  - set (total := Z.of_nat (length specs)).
    assert (Hrows := add_buttons_from_rows placement ltac:(lia) ltac:(lia)
                       total specs 0%nat empty_layouts).
    cbv zeta in Hrows. change (Z.of_nat 0) with 0 in Hrows.
    rewrite Nat.sub_0_r in Hrows.
    destruct Hrows as (-> & -> & ->). simpl.
    split; [done | split; [apply take_drop |]].
    rewrite length_take, length_drop.
    assert (0 <= total) by lia.
    assert (2 * ((total + 1) / 2) <= total + 1) by (apply Z.mul_div_le; lia).
    assert (total + 1 < 2 * ((total + 1) / 2) + 2).
    { pose proof (Z.mod_pos_bound (total + 1) 2 ltac:(lia)).
      pose proof (Z.div_mod (total + 1) 2 ltac:(lia)). lia. }
    subst total. lia.
Qed.

(** ** Dragging the storage window, continued *)

(** X16: the storage window moves along one axis only.  Whenever a move
    event leaves the drag under way, the window is at x =
    [_storage_initial_x], keeps its size and, on a primary screen at least
    as high as the window, lies between the top of the screen and
    [bottom - height]. *)
Theorem storage_drag_is_vertical_and_clamped (env : Screens) (pos : QPoint)
    (d : StorageDrag) (w : Window) (sw : StorageWindow) :
  storage_window w = Some sw ->
  r_height (sw_geometry sw) <= r_height (primaryScreen env) - 1 ->
  let (d', w') := _on_storage_move env true pos d w in
  _storage_dragging d' = true ->
  exists sw', storage_window w' = Some sw' /\
    r_x (sw_geometry sw') = _storage_initial_x d /\
    r_width (sw_geometry sw') = r_width (sw_geometry sw) /\
    r_height (sw_geometry sw') = r_height (sw_geometry sw) /\
    r_top (primaryScreen env) <= r_y (sw_geometry sw')
      <= r_bottom (primaryScreen env) - r_height (sw_geometry sw) /\
    geometry w' = geometry w.
Proof.
  intros Hsw Hfit. unfold _on_storage_move. rewrite Hsw.
  destruct d as [dragging start x0]. simpl.
  unfold r_top, r_bottom in *.
  destruct dragging; simpl.
  - intros _. eexists. split; [reflexivity |]. simpl. repeat split; lia.
  - destruct (Z.abs (pt_y pos - pt_y start) >? 3); simpl; [| discriminate].
    intros _. eexists. split; [reflexivity |]. simpl. repeat split; lia.
Qed.

Lemma storage_drag_is_vertical_and_clamped_witness :
  let w := set_storage_window (Some (mkStorage (mkRect 1890 320 30 30)))
             (window_at ∅ 1910 300) in
  exists sw',
    storage_window
      (_on_storage_move screen_1080p true (mkPoint 15 2000)
         (mkStorageDrag false (mkPoint 15 15) 1890) w).2 = Some sw' /\
    r_x (sw_geometry sw') = 1890 /\ r_y (sw_geometry sw') <= 1049.
Proof.
  intros w.
  pose proof (storage_drag_is_vertical_and_clamped screen_1080p
                (mkPoint 15 2000) (mkStorageDrag false (mkPoint 15 15) 1890) w
                (mkStorage (mkRect 1890 320 30 30)) eq_refl) as H.
  simpl in H.
  destruct H as (sw' & Hsw' & Hx & _ & _ & Hy & _); [lia | reflexivity |].
  exists sw'. split; [exact Hsw' |]. split; [exact Hx |].
  exact (proj2 Hy).
Defined.

(** What a press, move or release on the storage window leaves alone. *)
Lemma storage_step_keeps_panel env d w e :
  let s := storage_step env (d, w) e in
  geometry s.2 = geometry w /\ _retracted s.2 = _retracted w /\
  persisted s.2 = persisted w /\
  _original_position s.2 = _original_position w /\
  (is_Some (storage_window s.2) <-> is_Some (storage_window w)) /\
  (animation s.2 = animation w \/ animation s.2 = stopped (animation w)).
Proof.
  assert (Hexp : forall w0, let w' := _expand_window env w0 in
            geometry w' = geometry w0 /\ _retracted w' = _retracted w0 /\
            persisted w' = persisted w0 /\
            _original_position w' = _original_position w0 /\
            (is_Some (storage_window w') <-> is_Some (storage_window w0)) /\
            (animation w' = animation w0 \/
             animation w' = stopped (animation w0))).
  { intros w0. simpl. rewrite expand_window_eq.
    destruct (storage_window w0) eqn:E; simpl; rewrite ?E;
      repeat split; auto. }
  assert (Hsnap : forall w0, _smart_snap_to_edge env d w0 = w0).
  { intros w0. unfold _smart_snap_to_edge.
    destruct (storage_window w0); [| reflexivity]. by destruct (negb _). }
  destruct e as [b p | l p | b]; simpl.
  - repeat split; auto.
  - unfold _on_storage_move. destruct l; [| by repeat split; auto].
    destruct (_storage_dragging _); simpl; [| by repeat split; auto].
    destruct (storage_window w) eqn:E; simpl; rewrite ?E;
      repeat split; eauto.
  - unfold _on_storage_release. destruct b; simpl.
    + destruct (_storage_dragging d); [rewrite Hsnap; by repeat split; auto |].
      apply Hexp.
    + destruct (_storage_dragging d); simpl; [by repeat split; auto |].
      apply Hexp.
    + repeat split; auto.
Qed.

Lemma stopped_idempotent o : stopped (stopped o) = stopped o.
Proof. destruct o as [[[] ? ?] |]; reflexivity. Qed.

(** X17: no click and no drag on the storage window brings the panel back.
    Whatever presses, moves and releases the storage window receives, the
    panel keeps its geometry, its retracted state, the remembered original
    position and the stored position, and the storage window is not
    removed: the exit animation a click starts in [_expand_window] is
    destroyed before it can finish, so all a click can do to the panel is
    stop a running animation.  A release never moves the storage window
    either: the snap animation of [_smart_snap_to_edge] is lost the same
    way. *)
Theorem storage_events_never_expand (env : Screens) (d : StorageDrag)
    (w : Window) (evs : list StorageEvent) :
  let s := storage_run env (d, w) evs in
  (geometry s.2 = geometry w /\ _retracted s.2 = _retracted w /\
   persisted s.2 = persisted w /\
   _original_position s.2 = _original_position w /\
   (is_Some (storage_window s.2) <-> is_Some (storage_window w)) /\
   (animation s.2 = animation w \/ animation s.2 = stopped (animation w))) /\
  (forall b,
     storage_window (storage_step env s (StorageRelease b)).2
       = storage_window s.2).
Proof.
  simpl. split.
  - revert d w. induction evs as [| e evs IH]; intros d w.
    { repeat split; auto. }
    unfold storage_run in *. simpl.
    destruct (storage_step_keeps_panel env d w e)
      as (Hg & Hr & Hp & Ho & Hs & Ha).
    destruct (storage_step env (d, w) e) as [d1 w1]. simpl in *.
    destruct (IH d1 w1) as (Hg' & Hr' & Hp' & Ho' & Hs' & Ha').
    rewrite Hg', Hr', Hp', Ho', Hs', Hg, Hr, Hp, Ho, Hs.
    repeat split; auto; try tauto.
    destruct Ha as [Ha | Ha], Ha' as [Ha' | Ha']; rewrite Ha', Ha;
      rewrite ?stopped_idempotent; auto.
  - intros b. destruct (storage_run env (d, w) evs) as [d1 w1]. simpl.
    unfold _on_storage_release, _smart_snap_to_edge.
    rewrite expand_window_eq.
    destruct b, (_storage_dragging d1); simpl; try reflexivity;
      destruct (storage_window w1) eqn:E; simpl; rewrite ?E;
      try reflexivity; by destruct (negb _).
Qed.

(** ** The arrow widget, continued *)

(** What the moves and the long-press timeout never change: the values
    recorded at the press and the fixed x. *)
Lemma arrow_drag_phase_keeps_press e d :
  arrow_drag_phase e ->
  DW._press_start_time (DW.step d e) = DW._press_start_time d /\
  DW._drag_start_y (DW.step d e) = DW._drag_start_y d /\
  DW._original_y (DW.step d e) = DW._original_y d /\
  DW._fixed_x (DW.step d e) = DW._fixed_x d.
Proof.
  intros He. destruct e; try done; simpl.
  - unfold DW.mouseMoveEvent. split_tests; done.
  - split_tests; done.
Qed.

Lemma arrow_drag_phase_run_keeps_press evs : forall d,
  Forall arrow_drag_phase evs ->
  DW._press_start_time (DW.run d evs) = DW._press_start_time d /\
  DW._drag_start_y (DW.run d evs) = DW._drag_start_y d /\
  DW._original_y (DW.run d evs) = DW._original_y d /\
  DW._fixed_x (DW.run d evs) = DW._fixed_x d.
Proof.
  induction evs as [| e evs IH]; intros d Hall; [done |].
  inversion Hall as [| ? ? He Hrest]; subst.
  unfold DW.run in *. simpl.
  destruct (IH (DW.step d e) Hrest) as (-> & -> & -> & ->).
  by apply arrow_drag_phase_keeps_press.
Qed.

(** A drag under way was started by a move, which set [_was_dragging]. *)
Lemma arrow_dragging_was_dragging evs : forall d,
  Forall arrow_drag_phase evs ->
  (DW._dragging d = true -> DW._was_dragging d = Some true) ->
  DW._dragging (DW.run d evs) = true ->
  DW._was_dragging (DW.run d evs) = Some true.
Proof.
  induction evs as [| e evs IH]; intros d Hall Hinv; [done |].
  inversion Hall as [| ? ? He Hrest]; subst.
  unfold DW.run in *. simpl. apply IH; [done |].
  destruct e; try done; simpl.
  - unfold DW.mouseMoveEvent. split_tests; simpl; auto.
  - split_tests; simpl; auto.
Qed.

(** X19: the arrow widget follows the pointer vertically, at a fixed x.
    After a left press at time [now0] and height [gy0] with no drag under
    way, any moves and long-press timeout, a move to height [gy] at time
    [now] is taken as a drag move exactly when the long press has fired or
    more than 100 ms have passed and the pointer is more than 5 px from
    [gy0]; the widget is then at x = [_fixed_x] and at its y of the press
    plus [gy - gy0].  Otherwise the move changes nothing.  For the widget
    [_create_arrow_button] builds, [_fixed_x] is 0. *)
Theorem arrow_drag_follows_pointer (d : DW.t) (now0 gy0 now gy : Z)
    (evs : list DW.Event) :
  DW._dragging d = false ->
  Forall arrow_drag_phase evs ->
  let s1 := DW.run d (DW.Press LeftButton now0 gy0 :: evs) in
  let s := DW.step s1 (DW.Move true now gy) in
  (if DW._long_press_triggered s1
      || ((now - now0 >? 100) && (Z.abs (gy - gy0) >? 5))
   then DW.widget_pos s
          = mkPoint (DW._fixed_x d) (pt_y (DW.widget_pos d) + (gy - gy0)) /\
        DW._dragging s = true /\ DW._was_dragging s = Some true
   else s = s1) /\
  (forall x y, DW._fixed_x (arrow_widget_created x y) = 0).
Proof.
  intros Hidle Hevs s1 s. split; [| reflexivity].
  subst s s1. unfold DW.run. simpl.
  set (d1 := DW.mousePressEvent LeftButton now0 gy0 d).
  change (foldl DW.step d1 evs) with (DW.run d1 evs).
  destruct (arrow_drag_phase_run_keeps_press evs d1 Hevs)
    as (Ht & Hy & Ho & Hx).
  pose proof (arrow_dragging_was_dragging evs d1 Hevs) as Hwas.
  set (s1 := DW.run d1 evs) in *.
  unfold DW.mouseMoveEvent. rewrite Ht, Hy. simpl.
  destruct (DW._long_press_triggered s1 || _) eqn:Hcond; [| reflexivity].
  destruct (DW._dragging s1) eqn:Hdrag in |- *; simpl.
  - rewrite ?Ho, ?Hx, ?Hy. simpl.
    split; [reflexivity | split; [exact Hdrag |]].
    apply Hwas; [| exact Hdrag].
    simpl. congruence.
  - rewrite ?Ho, ?Hx, ?Hy. simpl. done.
Qed.

Lemma arrow_drag_follows_pointer_witness :
  let d := arrow_widget_created 1890 400 in
  let s := DW.run d [DW.Press LeftButton 0 410; DW.LongPressTimeout;
                     DW.Move true 150 470] in
  DW.widget_pos s = mkPoint 0 460.
Proof.
  pose proof (arrow_drag_follows_pointer (arrow_widget_created 1890 400)
                0 410 150 470 [DW.LongPressTimeout] eq_refl) as H.
  destruct H as [H _].
  - repeat constructor.
  - exact (proj1 H).
Defined.

(** Calm moves after a press leave the widget as the press left it. *)
Lemma arrow_calm_moves_run now0 gy0 moves : forall d,
  DW._press_start_time d = now0 ->
  DW._drag_start_y d = gy0 ->
  DW._long_press_triggered d = false ->
  Forall (calm_move now0 gy0) moves ->
  DW.run d moves = d.
Proof.
  induction moves as [| e moves IH]; intros d Ht Hy Hl Hall; [done |].
  inversion Hall as [| ? ? He Hrest]; subst.
  assert (Hstep : DW.step d e = d).
  { destruct e; try done. simpl in *. unfold DW.mouseMoveEvent. rewrite Hl.
    destruct left_down; [| done].
    destruct (_ >? 100) eqn:E1; [| done].
    destruct (_ >? 5) eqn:E2; [| done]. lia. }
  unfold DW.run in *. simpl. rewrite Hstep. by apply IH.
Qed.

(** X20: no drag without a long press before 100 ms or within 5 px.
    After a left press, moves that each come no later than 100 ms after
    the press or stay within 5 px of it change nothing: the widget does not
    move and no drag starts. *)
Theorem arrow_calm_moves_do_nothing (d : DW.t) (now0 gy0 : Z)
    (moves : list DW.Event) :
  Forall (calm_move now0 gy0) moves ->
  DW.run d (DW.Press LeftButton now0 gy0 :: moves)
    = DW.mousePressEvent LeftButton now0 gy0 d /\
  DW.widget_pos (DW.run d (DW.Press LeftButton now0 gy0 :: moves))
    = DW.widget_pos d /\
  DW._dragging (DW.run d (DW.Press LeftButton now0 gy0 :: moves))
    = DW._dragging d.
Proof.
  intros Hall.
  assert (H : DW.run d (DW.Press LeftButton now0 gy0 :: moves)
              = DW.mousePressEvent LeftButton now0 gy0 d).
  { unfold DW.run. simpl.
    change (foldl DW.step ?a moves) with (DW.run a moves).
    by apply (arrow_calm_moves_run now0 gy0). }
  rewrite H. done.
Qed.

Lemma arrow_calm_moves_do_nothing_witness :
  let d := arrow_widget_created 1890 400 in
  let evs := [DW.Press LeftButton 0 410; DW.Move true 50 500;
              DW.Move true 300 414] in
  DW.widget_pos (DW.run d evs) = mkPoint 1890 400 /\
  DW._dragging (DW.run d evs) = false.
Proof.
  apply (arrow_calm_moves_do_nothing (arrow_widget_created 1890 400) 0 410
           [DW.Move true 50 500; DW.Move true 300 414]).
  repeat constructor; simpl; lia.
Defined.

(** X21: a click on the arrow brings the panel back, a drag does not.
    The left release that follows a press with no drag under way and any
    moves and long-press timeout calls [_show_hidden_window] unless one of
    the moves started a drag, in which case the window is left as it is;
    either way the widget is no longer dragging.  Calm moves start no
    drag. *)
Theorem arrow_click_expands_drag_does_not (env : Screens)
    (direction : string) (d : DW.t) (w : Window) (now0 gy0 : Z)
    (evs : list DW.Event) :
  DW._dragging d = false ->
  Forall arrow_drag_phase evs ->
  let s1 := DW.run d (DW.Press LeftButton now0 gy0 :: evs) in
  let r := new_mouse_release env direction LeftButton s1 w in
  r.2 = (if DW._dragging s1 then w
         else _show_hidden_window env direction w) /\
  DW._dragging r.1 = false /\
  (Forall (calm_move now0 gy0) evs ->
   r.2 = _show_hidden_window env direction w).
Proof.
  intros Hidle Hevs s1 r.
  assert (Hshape : DW._was_dragging s1 = Some (DW._dragging s1)).
  { subst s1. unfold DW.run. simpl.
    set (d1 := DW.mousePressEvent LeftButton now0 gy0 d).
    assert (H1 : DW._was_dragging d1 = Some (DW._dragging d1))
      by (simpl; congruence).
    clearbody d1. clear Hidle.
    revert d1 H1. induction evs as [| e evs IH]; intros d1 H1; [done |].
    inversion Hevs as [| ? ? He Hrest]; subst. simpl.
    apply IH; [done |].
    destruct e; try done; simpl.
    - unfold DW.mouseMoveEvent. split_tests; simpl in *; auto; congruence.
    - split_tests; simpl; auto. }
  assert (Hr : r.2 = (if DW._dragging s1 then w
                      else _show_hidden_window env direction w)).
  { subst r. unfold new_mouse_release, handle_click_fires. simpl.
    rewrite Hshape. destruct (DW._dragging s1); reflexivity. }
  split; [exact Hr |].
  split; [unfold r, new_mouse_release; simpl;
          destruct (handle_click_fires _); reflexivity |].
  intros Hcalm. rewrite Hr.
  assert (E : s1 = DW.mousePressEvent LeftButton now0 gy0 d).
  { subst s1. unfold DW.run. simpl.
    change (foldl DW.step ?a evs) with (DW.run a evs).
    by apply (arrow_calm_moves_run now0 gy0). }
  rewrite E. simpl. by rewrite Hidle.
Qed.

Lemma arrow_click_expands_drag_does_not_witness :
  let d := arrow_widget_created 1890 400 in
  let w := window_at ∅ 1910 300 in
  (new_mouse_release screen_1080p "right" LeftButton
     (DW.run d [DW.Press LeftButton 0 410; DW.Move true 50 412]) w).2
    = _show_hidden_window screen_1080p "right" w.
Proof.
  intros d w.
  destruct (arrow_click_expands_drag_does_not screen_1080p "right" d w 0 410
              [DW.Move true 50 412]) as (_ & _ & H).
  - reflexivity.
  - repeat constructor.
  - apply H. constructor; [simpl; lia | constructor].
Defined.

(** ** Theme icons *)

Lemma create_icon_state env name st :
  (PZ._create_icon_from_name env name st).2
    = if plain_name name
      then PZ.mkState (PZ._icon_cache st) (Some (current_icon_map env st))
      else st.
Proof.
  unfold PZ._create_icon_from_name, PZ._get_icon_map, current_icon_map.
  destruct name as [s | n]; simpl; [| done].
  destruct (String.prefix _ s); simpl; [done |].
  destruct st as [c [m |]]; simpl; by destruct (_ !! s).
Qed.

Lemma create_icon_result env name st st' :
  current_icon_map env st' = current_icon_map env st ->
  (PZ._create_icon_from_name env name st').1
    = (PZ._create_icon_from_name env name st).1.
Proof.
  unfold PZ._create_icon_from_name, PZ._get_icon_map, current_icon_map.
  intros Hm. destruct name as [s | n]; simpl; [| done].
  destruct (String.prefix _ s); simpl; [done |].
  destruct st as [c [m |]], st' as [c' [m' |]]; simpl in *; subst;
    by destruct (_ !! s).
Qed.

(** What a call keeps: the icon map and the cache entries of other names. *)
Lemma get_theme_icon_keeps env n st :
  let st' := (PZ.get_theme_icon env n st).2 in
  current_icon_map env st' = current_icon_map env st /\
  (forall name, name <> n ->
     PZ._icon_cache st' !! name = PZ._icon_cache st !! name) /\
  (forall name i, PZ._icon_cache st !! name = Some i ->
     PZ._icon_cache st' !! name = Some i) /\
  (PZ._icon_map_cache st <> None -> PZ._icon_map_cache st' <> None).
Proof.
  unfold PZ.get_theme_icon.
  destruct (PZ._icon_cache st !! n) as [j |] eqn:Hn; simpl; [done |].
  pose proof (create_icon_state env n st) as Hst.
  destruct (PZ._create_icon_from_name env n st) as [[icon |] st2];
    simpl in Hst; subst st2; unfold PZ._get_default_icon;
    try destruct (PZ.chr _); destruct (plain_name n); simpl;
    (split; [by destruct st as [c [m |]] |]);
    (split; [intros name Hne; by rewrite ?lookup_insert_ne |]);
    (split; [intros name i Hi; destruct (decide (name = n)) as [-> | Hne];
             [congruence | by rewrite ?lookup_insert_ne] |]);
    done.
Qed.

(** The calls that change nothing. *)
Lemma get_theme_icon_fixed env name st i :
  PZ.get_theme_icon env name st = (i, st) <->
  PZ._icon_cache st !! name = Some i \/
  (PZ._icon_cache st !! name = None /\ i = PZ.QIcon_null /\
   PZ.chr (PZ.DEFAULT_ICON_CODEPOINT env) = None /\
   (PZ._create_icon_from_name env name st).1 = None /\
   (plain_name name = true -> PZ._icon_map_cache st <> None)).
Proof.
  unfold PZ.get_theme_icon.
  destruct (PZ._icon_cache st !! name) as [j |] eqn:Hn.
  { split; [intros [= ->]; by left | intros [[= ->] | (? & _)]; done]. }
  pose proof (create_icon_state env name st) as Hst.
  destruct (PZ._create_icon_from_name env name st) as [[icon |] st2];
    simpl in Hst; subst st2.
  - split.
    + intros [= -> Hs]. exfalso.
      assert (H : PZ._icon_cache st !! name = Some i).
      { rewrite <- Hs at 1. destruct (plain_name name); simpl;
          by rewrite lookup_insert_eq. }
      congruence.
    + intros [? | (_ & _ & _ & ? & _)]; done.
  - unfold PZ._get_default_icon.
    destruct (PZ.chr _) as [c |] eqn:Hc.
    + split.
      * intros [= <- Hs]. exfalso.
        assert (H : PZ._icon_cache st !! name
                    = Some (PZ.FluentSystemIcons (PZ.Chr c))).
        { rewrite <- Hs at 1. destruct (plain_name name); simpl;
            by rewrite lookup_insert_eq. }
        congruence.
      * intros [? | (_ & _ & ? & _)]; done.
    + split.
      * intros [= <- Hs]. right. repeat split; try done.
        intros Hp. rewrite Hp in Hs. rewrite <- Hs. done.
      * intros [? | (_ & -> & _ & _ & Hp)]; [done |]. f_equal.
        destruct (plain_name name); [| done].
        destruct st as [c [m |]]; simpl in *; [done |].
        by destruct Hp.
Qed.

(** A call that changes nothing is repeated with the same result after any
    other call. *)
Lemma get_theme_icon_stable env name i st n :
  PZ.get_theme_icon env name st = (i, st) ->
  let st' := (PZ.get_theme_icon env n st).2 in
  PZ.get_theme_icon env name st' = (i, st').
Proof.
  intros Hfix st'.
  destruct (decide (n = name)) as [-> | Hne].
  { subst st'. by rewrite Hfix. }
  destruct (get_theme_icon_keeps env n st) as (Hm & Hother & Hgrow & Hmap).
  fold st' in Hm, Hother, Hgrow, Hmap.
  apply get_theme_icon_fixed.
  apply get_theme_icon_fixed in Hfix as [Hhit | (Hmiss & -> & Hc & Hcr & Hp)].
  - left. by apply Hgrow.
  - right. rewrite Hother by done.
    repeat split; try done.
    + by rewrite (create_icon_result env name st st').
    + auto.
Qed.

(** The second call in a row changes nothing. *)
Lemma get_theme_icon_twice env name st :
  let r := PZ.get_theme_icon env name st in
  PZ.get_theme_icon env name r.2 = r.
Proof.
  intros r. rewrite (surjective_pairing r).
  apply get_theme_icon_fixed. subst r.
  unfold PZ.get_theme_icon.
  destruct (PZ._icon_cache st !! name) as [j |] eqn:Hn; simpl; [by left |].
  pose proof (create_icon_state env name st) as Hst.
  pose proof (create_icon_result env name st
                (PZ._create_icon_from_name env name st).2) as Hres.
  destruct (PZ._create_icon_from_name env name st) as [[icon |] st2];
    simpl in *; subst st2.
  - left. by rewrite lookup_insert_eq.
  - unfold PZ._get_default_icon.
    destruct (PZ.chr _) as [c |] eqn:Hc; simpl.
    + left. by rewrite lookup_insert_eq.
    + right.
      assert (Hm : current_icon_map env
                     (if plain_name name
                      then PZ.mkState (PZ._icon_cache st)
                             (Some (current_icon_map env st))
                      else st) = current_icon_map env st)
        by (by destruct (plain_name name)).
      split; [by destruct (plain_name name) |].
      split; [done |]. split; [done |].
      split; [exact (Hres Hm) |].
      intros ->. done.
Qed.

(** X22: an icon name keeps the icon of its first call.  After
    [get_theme_icon(name)] and any further calls of [get_theme_icon], a call
    with the same name returns the icon of the first call and changes
    neither the cache nor the loaded icon map. *)
Theorem theme_icon_is_remembered (env : PZ.Env) (st : PZ.State)
    (name : PZ.IconName) (others : list PZ.IconName) :
  let r := PZ.get_theme_icon env name st in
  let st' := PZ.get_theme_icons env r.2 others in
  PZ.get_theme_icon env name st' = (r.1, st').
Proof.
  intros r st'. subst st'.
  assert (H0 : PZ.get_theme_icon env name r.2 = (r.1, r.2)).
  { rewrite <- surjective_pairing. apply get_theme_icon_twice. }
  generalize dependent (r.2). generalize (r.1). clear r.
  intros i s Hs. revert s Hs.
  induction others as [| n others IH]; intros s Hs; [exact Hs |].
  unfold PZ.get_theme_icons in *. simpl. apply IH.
  by apply get_theme_icon_stable.
Qed.

(** X23: a name missing from the icon map gets the default icon.  For a
    name that is not in the cache and does not start with a backslash and u,
    [get_theme_icon] returns the icon of the code point the icon map gives,
    and the default icon when the name is missing from the map or its code
    point is outside the range of [chr]; unless the default code point is
    itself out of range, the icon returned is cached under the name, so a
    missing name keeps the default icon. *)
Theorem theme_icon_lookup_and_fallback (env : PZ.Env) (st : PZ.State)
    (s : string) :
  PZ.is_escape (PZ.NameStr s) = false ->
  PZ._icon_cache st !! PZ.NameStr s = None ->
  let r := PZ.get_theme_icon env (PZ.NameStr s) st in
  r.1 = match current_icon_map env st !! s ≫= PZ.chr with
        | Some c => PZ.FluentSystemIcons (PZ.Chr c)
        | None => default_icon env
        end /\
  (r.1 <> PZ.QIcon_null ->
   PZ._icon_cache r.2 !! PZ.NameStr s = Some r.1) /\
  PZ._icon_map_cache r.2 = Some (current_icon_map env st).
Proof.
  intros Hesc Hmiss r. subst r.
  unfold PZ.get_theme_icon. rewrite Hmiss.
  unfold PZ._create_icon_from_name. rewrite Hesc. simpl.
  unfold PZ._get_icon_map, current_icon_map, default_icon,
    PZ._get_default_icon.
  destruct st as [c [m |]]; simpl in *.
  - destruct (m !! s) as [cp |]; simpl;
      [destruct (PZ.chr cp); simpl |];
      try destruct (PZ.chr (PZ.DEFAULT_ICON_CODEPOINT env)); simpl;
      repeat split; try done; intros _; by rewrite lookup_insert_eq.
  - destruct (PZ.icon_map_file env !! s) as [cp |]; simpl;
      [destruct (PZ.chr cp); simpl |];
      try destruct (PZ.chr (PZ.DEFAULT_ICON_CODEPOINT env)); simpl;
      repeat split; try done; intros _; by rewrite lookup_insert_eq.
Qed.

Lemma theme_icon_lookup_and_fallback_witness :
  let env := PZ.mkEnv (<["ic_fluent_pin_20_filled" := 62000]> ∅) 61440
               (fun _ => None) in
  let st := PZ.mkState ∅ None in
  (PZ.get_theme_icon env (PZ.NameStr "ic_fluent_gift_20_filled") st).1
    = PZ.FluentSystemIcons (PZ.Chr 61440) /\
  PZ._icon_cache
    (PZ.get_theme_icon env (PZ.NameStr "ic_fluent_gift_20_filled") st).2
    !! PZ.NameStr "ic_fluent_gift_20_filled"
    = Some (PZ.FluentSystemIcons (PZ.Chr 61440)).
Proof.
  intros env st.
  destruct (theme_icon_lookup_and_fallback env st "ic_fluent_gift_20_filled")
    as (H1 & H2 & _); [reflexivity | reflexivity |].
  split; [exact H1 |].
  rewrite H2; [by rewrite H1 | by rewrite H1].
Defined.
